(** * The MALI framebuffer cursor manager (SDL_malimouse.c)

    A shallow embedding of the six mouse hooks of the mali-fbdev video
    driver: MALI_CreateCursor, MALI_FreeCursor, MALI_ShowCursor,
    MALI_MoveCursor, MALI_WarpMouse and MALI_WarpMouseGlobal.

    The C code works on three kinds of state, all kept explicit here:
    - the heap blocks it allocates and frees (cursor struct, cursor data
      struct, pixel buffer), a finite map from addresses to blocks;
    - the host pointer record that SDL_GetMouse hands out;
    - the calls it makes into the rest of SDL, logged in call order.
    A hook is a function from a world to an optional result and world;
    [None] stands for a memory fault (a dereference of NULL or of a dead
    block, or a free of a block that is not live). *)

From Stdlib Require Import ZArith String List Lia.
From stdpp Require Import base option gmap.

Open Scope Z_scope.

(** ** C integers *)

(** [int] is 32 bits wide; arithmetic on it is kept in range by wrapping
    around, the way the target compilers treat a signed overflow. *)
Definition INT_MIN : Z := - 2 ^ 31.
Definition INT_MAX : Z := 2 ^ 31 - 1.

Definition wrap_int (z : Z) : Z := (z + 2 ^ 31) mod 2 ^ 32 - 2 ^ 31.

Definition int_mul (a b : Z) : Z := wrap_int (a * b).

Definition in_int (z : Z) : Prop := INT_MIN <= z <= INT_MAX.

(** ** Pointers and heap blocks *)

Inductive ptr : Type :=
| NULL
| Addr (a : positive).

Definition is_null (p : ptr) : bool :=
  match p with NULL => true | Addr _ => false end.

#[global] Instance ptr_eq_dec : EqDecision ptr.
Proof. solve_decision. Defined.

(** Modelled from the spec: struct SDL_Cursor is declared in the events
    layer (SDL_mouse_c.h), outside SDL_malimouse.c.  It is the host-visible
    handle: the link of the host's cursor list, and the backend's private
    data, the only field the hooks touch. *)
Record SDL_Cursor : Type := mkCursor {
  next : ptr;
  driverdata : ptr
}.

(** Modelled from the spec: the declaration of MALI_CursorData
    (SDL_malimouse.h) is missing.  The record has the seven fields that
    MALI_CreateCursor assigns, the CursorImage of the specification with
    its hot spot, dimensions and pixel buffer; the numeric fields hold the
    C value assigned to them. *)
Record MALI_CursorData : Type := mkCursorData {
  hot_x : Z;
  hot_y : Z;
  w : Z;
  h : Z;
  buffer : ptr;
  buffer_size : Z;
  buffer_pitch : Z
}.

Definition set_driverdata (p : ptr) (c : SDL_Cursor) : SDL_Cursor :=
  mkCursor (next c) p.

Definition set_hot_x (v : Z) (d : MALI_CursorData) : MALI_CursorData :=
  mkCursorData v (hot_y d) (w d) (h d) (buffer d) (buffer_size d) (buffer_pitch d).
Definition set_hot_y (v : Z) (d : MALI_CursorData) : MALI_CursorData :=
  mkCursorData (hot_x d) v (w d) (h d) (buffer d) (buffer_size d) (buffer_pitch d).
Definition set_w (v : Z) (d : MALI_CursorData) : MALI_CursorData :=
  mkCursorData (hot_x d) (hot_y d) v (h d) (buffer d) (buffer_size d) (buffer_pitch d).
Definition set_h (v : Z) (d : MALI_CursorData) : MALI_CursorData :=
  mkCursorData (hot_x d) (hot_y d) (w d) v (buffer d) (buffer_size d) (buffer_pitch d).
Definition set_buffer (p : ptr) (d : MALI_CursorData) : MALI_CursorData :=
  mkCursorData (hot_x d) (hot_y d) (w d) (h d) p (buffer_size d) (buffer_pitch d).
Definition set_buffer_size (v : Z) (d : MALI_CursorData) : MALI_CursorData :=
  mkCursorData (hot_x d) (hot_y d) (w d) (h d) (buffer d) v (buffer_pitch d).
Definition set_buffer_pitch (v : Z) (d : MALI_CursorData) : MALI_CursorData :=
  mkCursorData (hot_x d) (hot_y d) (w d) (h d) (buffer d) (buffer_size d) v.

(** A live allocation: one of the two structs, or a pixel buffer of the
    number of bytes, a size_t, that was asked of SDL_malloc. *)
Inductive block : Type :=
| BCursor (c : SDL_Cursor)
| BCurData (d : MALI_CursorData)
| BBuffer (size : Z).

(** What SDL_calloc hands out: every field zero. *)
Definition zero_cursor : SDL_Cursor := mkCursor NULL NULL.
Definition zero_curdata : MALI_CursorData := mkCursorData 0 0 0 0 NULL 0 0.

(** ** The surface handed to MALI_CreateCursor *)

(** Modelled from the spec: SDL_Surface is declared outside
    SDL_malimouse.c.  These are the fields MALI_CreateCursor reads: width,
    height, pixel format, pixels and row pitch of the source surface;
    [surface_format] is surface->format->format.  The record is what the
    hook reads through its [surface] argument, which it never tests: the
    argument is taken to point to a live surface with a live format. *)
Record SDL_Surface : Type := mkSurface {
  surface_w : Z;
  surface_h : Z;
  surface_format : Z;
  surface_pixels : ptr;
  surface_pitch : Z
}.

(** Modelled from the spec: the fixed 32-bit ARGB format of the cursor
    buffer.  The constant SDL_PIXELFORMAT_ARGB8888 is defined in
    SDL_pixels.h as packed 32 bit, order ARGB, layout 8888, 32 bits in 4
    bytes. *)
Definition SDL_PIXELFORMAT_ARGB8888 : Z := 0x16362004.

(** ** The host pointer record and the calls into the host *)

(** Modelled from the spec: SDL_Mouse, the pointer state of the host
    (SDL_mouse_c.h), with the fields the hooks read (focused window,
    current cursor, mouse id) and the logical position the host keeps. *)
Record SDL_Mouse : Type := mkMouse {
  focus : ptr;
  cur_cursor : ptr;
  mouseID : Z;
  mouse_x : Z;
  mouse_y : Z
}.

Inductive event : Type :=
| EOutOfMemory
| ESetError (msg : string)
| EFree (a : positive)
| EPremultiplyAlpha (width height src_format : Z) (src : ptr) (src_pitch : Z)
                    (dst_format : Z) (dst : ptr) (dst_pitch : Z)
| EShowCursor (toggle : Z)
| ESendMouseMotion (window : ptr) (id relative x y : Z)
| EWarpMouseInWindow (window : ptr) (x y : Z).

#[global] Instance event_eq_dec : EqDecision event.
Proof. solve_decision. Defined.

(** The host functions the hooks call and whose bodies are outside
    SDL_malimouse.c, taken as they come: what SDL_GetDisplayForWindow
    answers, what SDL_ShowCursor returns, and what SDL_ShowCursor,
    SDL_SendMouseMotion and SDL_WarpMouseInWindow do to the pointer
    record.  Each is a call that returns. *)
Class Host : Type := mkHost {
  host_GetDisplayForWindow : ptr -> ptr;
  host_ShowCursor : Z -> SDL_Mouse -> Z * SDL_Mouse;
  host_SendMouseMotion : ptr -> Z -> Z -> Z -> Z -> SDL_Mouse -> SDL_Mouse;
  host_WarpMouseInWindow : ptr -> Z -> Z -> SDL_Mouse -> SDL_Mouse
}.

(** ** Worlds *)

(** [oom_plan] decides the coming allocations in order: [true] makes the
    next request fail; once the plan is used up every request succeeds.
    [mouse] is what SDL_GetMouse returns, [None] for NULL. *)
Record world : Type := mkWorld {
  heap : gmap positive block;
  oom_plan : list bool;
  mouse : option SDL_Mouse;
  trace : list event
}.

Definition set_heap (hp : gmap positive block) (σ : world) : world :=
  mkWorld hp (oom_plan σ) (mouse σ) (trace σ).
Definition set_oom_plan (p : list bool) (σ : world) : world :=
  mkWorld (heap σ) p (mouse σ) (trace σ).
Definition set_mouse (m : option SDL_Mouse) (σ : world) : world :=
  mkWorld (heap σ) (oom_plan σ) m (trace σ).
Definition log (e : event) (σ : world) : world :=
  mkWorld (heap σ) (oom_plan σ) (mouse σ) (trace σ ++ [e]).

(** ** The monad of the hooks *)

Definition M (A : Type) : Type := world -> option (A * world).

Definition ret {A : Type} (a : A) : M A := fun σ => Some (a, σ).

Definition bind {A B : Type} (m : M A) (k : A -> M B) : M B :=
  fun σ => match m σ with
           | Some (a, σ') => k a σ'
           | None => None
           end.

Declare Scope hook_scope.
Delimit Scope hook_scope with hook.
Notation "'let*' x ':=' m 'in' k" := (bind m (fun x => k))
  (at level 10, x name, m at level 100, k at level 200) : hook_scope.
Notation "m ';;' k" := (bind m (fun _ => k))
  (at level 100, k at level 200, right associativity) : hook_scope.
Notation "'when' b 'then' m" := (if b then m else ret tt)
  (at level 10, b at level 100, m at level 200) : hook_scope.

Open Scope hook_scope.

(** *** Memory *)

Definition fresh_addr (hp : gmap positive block) : positive := fresh (dom hp).

(** One request to the allocator for a block with initial content [b]. *)
Definition alloc (b : block) : M ptr := fun σ =>
  match oom_plan σ with
  | true :: plan => Some (NULL, set_oom_plan plan σ)
  | false :: plan =>
      let a := fresh_addr (heap σ) in
      Some (Addr a, set_heap (<[a := b]> (heap σ)) (set_oom_plan plan σ))
  | [] =>
      let a := fresh_addr (heap σ) in
      Some (Addr a, set_heap (<[a := b]> (heap σ)) σ)
  end.

(** SDL_calloc(1, sizeof( *cursor)) and SDL_calloc(1, sizeof( *curdata)). *)
Definition SDL_calloc_cursor : M ptr := alloc (BCursor zero_cursor).
Definition SDL_calloc_curdata : M ptr := alloc (BCurData zero_curdata).

(** The parameter of SDL_malloc is a size_t, 64 bits wide: an [int] handed
    to it is converted, a negative one to 2^64 minus its magnitude.  No
    object is larger than PTRDIFF_MAX bytes, so a request above that is
    answered with NULL whatever the plan says; it uses up its entry of the
    plan like any other request. *)
Definition PTRDIFF_MAX : Z := 2 ^ 63 - 1.

Definition to_size_t (z : Z) : Z := z mod 2 ^ 64.

Definition refuse : M ptr := fun σ =>
  Some (NULL, set_oom_plan (tail (oom_plan σ)) σ).

Definition SDL_malloc (size : Z) : M ptr :=
  let n := to_size_t size in
  if PTRDIFF_MAX <? n then refuse else alloc (BBuffer n).

(** SDL_free of a live block removes it; of NULL does nothing; of anything
    else is a fault. *)
Definition SDL_free (p : ptr) : M unit := fun σ =>
  match p with
  | NULL => Some (tt, σ)
  | Addr a =>
      match heap σ !! a with
      | Some _ => Some (tt, log (EFree a) (set_heap (delete a (heap σ)) σ))
      | None => None
      end
  end.

Definition load_cursor (p : ptr) : M SDL_Cursor := fun σ =>
  match p with
  | Addr a => match heap σ !! a with
              | Some (BCursor c) => Some (c, σ)
              | _ => None
              end
  | NULL => None
  end.

Definition load_curdata (p : ptr) : M MALI_CursorData := fun σ =>
  match p with
  | Addr a => match heap σ !! a with
              | Some (BCurData d) => Some (d, σ)
              | _ => None
              end
  | NULL => None
  end.

Definition store_cursor (p : ptr) (f : SDL_Cursor -> SDL_Cursor) : M unit :=
  fun σ =>
  match p with
  | Addr a => match heap σ !! a with
              | Some (BCursor c) =>
                  Some (tt, set_heap (<[a := BCursor (f c)]> (heap σ)) σ)
              | _ => None
              end
  | NULL => None
  end.

Definition store_curdata (p : ptr) (f : MALI_CursorData -> MALI_CursorData)
  : M unit := fun σ =>
  match p with
  | Addr a => match heap σ !! a with
              | Some (BCurData d) =>
                  Some (tt, set_heap (<[a := BCurData (f d)]> (heap σ)) σ)
              | _ => None
              end
  | NULL => None
  end.

(** *** Calls into the rest of SDL *)

Definition emit (e : event) : M unit := fun σ => Some (tt, log e σ).

Definition SDL_GetMouse : M (option SDL_Mouse) := fun σ => Some (mouse σ, σ).

(** SDL_SetError records the message and returns -1. *)
Definition SDL_SetError (msg : string) : M Z :=
  emit (ESetError msg) ;; ret (-1).

(** SDL_OutOfMemory is SDL_Error(SDL_ENOMEM); it returns -1 as well. *)
Definition SDL_OutOfMemory : M Z :=
  emit EOutOfMemory ;; ret (-1).

(** Modelled from the spec: SDL_PremultiplyAlpha, the conversion routine
    of the surface layer, is missing.  It writes [height] rows of [width]
    pixels of 4 bytes into the destination, one row every [dst_pitch]
    bytes, and is total on valid input.  Valid input is what such a routine
    asks of its caller: dimensions that are not negative, a pitch that
    holds a row, and a destination that is a live pixel buffer with room
    for all the rows.  On anything else it writes outside the buffer, a
    fault.  Its status is not looked at by the caller. *)
Definition conversion_valid (width height dst_pitch size : Z) : bool :=
  (0 <=? width) && (0 <=? height) && (width * 4 <=? dst_pitch)
  && (height * dst_pitch <=? size).

Definition SDL_PremultiplyAlpha (width height src_format : Z) (src : ptr)
    (src_pitch dst_format : Z) (dst : ptr) (dst_pitch : Z) : M unit :=
  fun σ =>
  match dst with
  | Addr b =>
      match heap σ !! b with
      | Some (BBuffer n) =>
          if conversion_valid width height dst_pitch n
          then emit (EPremultiplyAlpha width height src_format src src_pitch
                                       dst_format dst dst_pitch) σ
          else None
      | _ => None
      end
  | NULL => None
  end.

(** Applies a host function to the pointer record; the hooks get here
    only after SDL_GetMouse gave them a record. *)
Definition on_mouse {A : Type} (f : SDL_Mouse -> A * SDL_Mouse) : M A :=
  fun σ => match mouse σ with
           | Some m => let '(a, m') := f m in Some (a, set_mouse (Some m') σ)
           | None => None
           end.

Section Hooks.

Context {host : Host}.

Definition SDL_GetDisplayForWindow (window : ptr) : M ptr :=
  ret (host_GetDisplayForWindow window).

Definition SDL_ShowCursor (toggle : Z) : M Z :=
  emit (EShowCursor toggle) ;; on_mouse (host_ShowCursor toggle).

Definition SDL_SendMouseMotion (window : ptr) (id relative x y : Z) : M unit :=
  emit (ESendMouseMotion window id relative x y) ;;
  on_mouse (fun m => (tt, host_SendMouseMotion window id relative x y m)).

Definition SDL_WarpMouseInWindow (window : ptr) (x y : Z) : M unit :=
  emit (EWarpMouseInWindow window x y) ;;
  on_mouse (fun m => (tt, host_WarpMouseInWindow window x y m)).

(** ** MALI_FreeCursor *)

Definition MALI_FreeCursor (cursor : ptr) : M unit :=
  when negb (is_null cursor) then
    let* c := load_cursor cursor in
    let curdata := driverdata c in
    let* d := load_curdata curdata in
    (when negb (is_null (buffer d)) then
       SDL_free (buffer d) ;;
       store_curdata curdata (set_buffer NULL)) ;;
    let* c' := load_cursor cursor in
    (when negb (is_null (driverdata c')) then
       SDL_free (driverdata c')) ;;
    SDL_free cursor.

(** ** MALI_CreateCursor *)

(** The code after the [cleanup] label, with the three locals it reads. *)
Definition cleanup (cursor curdata ret_ : ptr) : M ptr :=
  (when is_null ret_ then
     (when negb (is_null curdata) then
        let* d := load_curdata curdata in
        (when negb (is_null (buffer d)) then SDL_free (buffer d)) ;;
        SDL_free curdata) ;;
     (when negb (is_null cursor) then SDL_free cursor)) ;;
  ret ret_.

Definition MALI_CreateCursor (surface : SDL_Surface) (hot_x hot_y : Z) : M ptr :=
  let curdata := NULL in
  let ret_ := NULL in
  let* cursor := SDL_calloc_cursor in
  if is_null cursor then
    SDL_OutOfMemory ;; cleanup cursor curdata ret_
  else
  let* curdata := SDL_calloc_curdata in
  if is_null curdata then
    SDL_OutOfMemory ;; cleanup cursor curdata ret_
  else
  store_curdata curdata (set_hot_x hot_x) ;;
  store_curdata curdata (set_hot_y hot_y) ;;
  store_curdata curdata (set_w (surface_w surface)) ;;
  store_curdata curdata (set_h (surface_h surface)) ;;
  store_curdata curdata (set_buffer NULL) ;;
  store_curdata curdata (set_buffer_pitch (surface_w surface)) ;;
  store_curdata curdata
    (set_buffer_size (int_mul (int_mul (surface_w surface) (surface_h surface)) 4)) ;;
  let* d := load_curdata curdata in
  let* b := SDL_malloc (buffer_size d) in
  store_curdata curdata (set_buffer b) ;;
  let* d := load_curdata curdata in
  if is_null (buffer d) then
    SDL_OutOfMemory ;; cleanup cursor curdata ret_
  else
  SDL_PremultiplyAlpha (surface_w surface) (surface_h surface)
    (surface_format surface) (surface_pixels surface) (surface_pitch surface)
    SDL_PIXELFORMAT_ARGB8888 (buffer d) (int_mul (surface_w surface) 4) ;;
  store_cursor cursor (set_driverdata curdata) ;;
  let ret_ := cursor in
  cleanup cursor curdata ret_.

(** ** MALI_ShowCursor *)

Definition MALI_ShowCursor (cursor : ptr) : M Z :=
  let ret_ := 0 in
  let* mouse := SDL_GetMouse in
  match mouse with
  | None => SDL_SetError "No mouse."
  | Some m =>
      let window := focus m in
      if is_null window || is_null cursor then
        ret ret_
      else
        let* display := SDL_GetDisplayForWindow window in
        if negb (is_null display) then
          if negb (is_null cursor) then SDL_ShowCursor 1
          else SDL_ShowCursor 0
        else ret ret_
  end.

(** ** MALI_WarpMouseGlobal and MALI_WarpMouse *)

Definition MALI_WarpMouseGlobal (x y : Z) : M Z :=
  let* mouse := SDL_GetMouse in
  match mouse with
  | Some m =>
      if negb (is_null (cur_cursor m)) && negb (is_null (focus m)) then
        let window := focus m in
        SDL_SendMouseMotion (focus m) (mouseID m) 0 x y ;;
        SDL_WarpMouseInWindow window x y ;;
        ret 0
      else SDL_SetError "No mouse or current cursor."
  | None => SDL_SetError "No mouse or current cursor."
  end.

Definition MALI_WarpMouse (window : ptr) (x y : Z) : M unit :=
  MALI_WarpMouseGlobal x y ;; ret tt.

(** ** MALI_MoveCursor *)

(** The call that would move the cursor graphic is commented out in the
    source; what is left reads the pointer record and a local. *)
Definition MALI_MoveCursor (cursor : ptr) : M unit :=
  let* mouse := SDL_GetMouse in
  match mouse with
  | Some m =>
      if negb (is_null (cur_cursor m)) && negb (is_null (focus m)) then
        let window := focus m in
        ret tt
      else ret tt
  | None => ret tt
  end.

(** ** The host's use of the hooks

    MALI_InitMouse installs the six hooks in the pointer record; from then
    on the host calls them in any order and with any arguments, except that
    it hands MALI_FreeCursor only NULL or a cursor that MALI_CreateCursor
    returned and that was not freed since. *)
Inductive call : Type :=
| CreateCursor (surface : SDL_Surface) (hot_x hot_y : Z)
| ShowCursor (cursor : ptr)
| MoveCursor (cursor : ptr)
| FreeCursor (cursor : ptr)
| WarpMouse (window : ptr) (x y : Z)
| WarpMouseGlobal (x y : Z).

Definition run_call (c : call) : M unit :=
  match c with
  | CreateCursor surface hot_x hot_y =>
      MALI_CreateCursor surface hot_x hot_y ;; ret tt
  | ShowCursor cursor => MALI_ShowCursor cursor ;; ret tt
  | MoveCursor cursor => MALI_MoveCursor cursor
  | FreeCursor cursor => MALI_FreeCursor cursor
  | WarpMouse window x y => MALI_WarpMouse window x y
  | WarpMouseGlobal x y => MALI_WarpMouseGlobal x y ;; ret tt
  end.

Definition allowed (σ : world) (c : call) : Prop :=
  match c with
  | FreeCursor (Addr a) => exists cur, heap σ !! a = Some (BCursor cur)
  | _ => True
  end.

(** One step: a hook runs, or the host changes its pointer record and the
    allocator what it will answer. *)
Inductive step : world -> world -> Prop :=
| step_call (c : call) (σ σ' : world) :
    allowed σ c -> run_call c σ = Some (tt, σ') -> step σ σ'
| step_host (plan : list bool) (m : option SDL_Mouse) (σ : world) :
    step σ (set_mouse m (set_oom_plan plan σ)).

Inductive reachable : world -> Prop :=
| reach_init (σ : world) : heap σ = ∅ -> reachable σ
| reach_step (σ σ' : world) : reachable σ -> step σ σ' -> reachable σ'.

End Hooks.

(** * Vocabulary of the statements *)

(** The three addresses a successful MALI_CreateCursor takes from the
    allocator, and the cursor data it leaves behind. *)
Definition cursor_addr (hp : gmap positive block) : positive := fresh_addr hp.

Definition curdata_addr (hp : gmap positive block) : positive :=
  fresh_addr (<[cursor_addr hp := BCursor zero_cursor]> hp).

Definition buffer_addr (hp : gmap positive block) : positive :=
  fresh_addr (<[curdata_addr hp := BCurData zero_curdata]>
                (<[cursor_addr hp := BCursor zero_cursor]> hp)).

Definition created_curdata (surface : SDL_Surface) (hot_x hot_y : Z)
    (b : positive) : MALI_CursorData :=
  mkCursorData hot_x hot_y (surface_w surface) (surface_h surface) (Addr b)
    (int_mul (int_mul (surface_w surface) (surface_h surface)) 4)
    (surface_w surface).

Definition created_heap (surface : SDL_Surface) (hot_x hot_y : Z)
    (hp : gmap positive block) : gmap positive block :=
  <[cursor_addr hp := BCursor (mkCursor NULL (Addr (curdata_addr hp)))]>
    (<[curdata_addr hp :=
         BCurData (created_curdata surface hot_x hot_y (buffer_addr hp))]>
       (<[buffer_addr hp :=
            BBuffer (int_mul (int_mul (surface_w surface) (surface_h surface)) 4)]>
          hp)).

Definition allocs_succeed (n : nat) (plan : list bool) : bool :=
  forallb negb (take n plan).

(** The surfaces whose cursor buffer MALI_CreateCursor sizes right: no
    negative dimension, and a row and the whole image count bytes that an
    [int] holds. *)
Definition surface_fits (surface : SDL_Surface) : Prop :=
  0 <= surface_w surface /\ 0 <= surface_h surface /\
  surface_w surface * 4 <= INT_MAX /\
  surface_w surface * surface_h surface * 4 <= INT_MAX.

#[global] Instance surface_fits_dec (surface : SDL_Surface) :
  Decision (surface_fits surface).
Proof. unfold surface_fits. apply _. Defined.

(** The surface of a call of MALI_CreateCursor has dimensions that are not
    negative and whose products with 4 fit an [int]; the other calls carry
    no surface. *)
Definition call_fits (c : call) : Prop :=
  match c with
  | CreateCursor surface _ _ => surface_fits surface
  | _ => True
  end.

(** The position in the plan of the first request that fails. *)
Fixpoint first_failure (plan : list bool) : option nat :=
  match plan with
  | [] => None
  | true :: _ => Some 0%nat
  | false :: plan => S <$> first_failure plan
  end.

(** What MALI_CreateCursor holds when its request number [k] fails, in the
    order in which [cleanup] frees it. *)
Definition freed_on_failure (k : nat) (hp : gmap positive block)
  : list positive :=
  match k with
  | 0%nat => []
  | 1%nat => [cursor_addr hp]
  | _ => [curdata_addr hp; cursor_addr hp]
  end.

Definition freed_heap (c d : positive) (b : ptr) (hp : gmap positive block)
  : gmap positive block :=
  delete c (delete d (match b with Addr b => delete b hp | NULL => hp end)).

Definition free_events (c d : positive) (b : ptr) : list event :=
  match b with Addr b => [EFree b] | NULL => [] end ++ [EFree d; EFree c].

(** ** Ownership of the heap

    Every cursor struct owns one cursor data struct, every cursor data
    struct owns one pixel buffer whose length is the recorded
    [buffer_size], the product of the recorded width, height and 4 in [int]
    arithmetic; no block has two owners. *)
Record heap_ok (hp : gmap positive block) : Prop := mk_heap_ok {
  ok_cursor : forall c cur,
    hp !! c = Some (BCursor cur) ->
    exists d cd, driverdata cur = Addr d /\ hp !! d = Some (BCurData cd);
  ok_curdata : forall d cd,
    hp !! d = Some (BCurData cd) ->
    exists b, buffer cd = Addr b /\
              hp !! b = Some (BBuffer (buffer_size cd)) /\
              buffer_size cd = int_mul (int_mul (w cd) (h cd)) 4;
  ok_cursor_inj : forall c1 c2 cur1 cur2,
    hp !! c1 = Some (BCursor cur1) -> hp !! c2 = Some (BCursor cur2) ->
    driverdata cur1 = driverdata cur2 -> c1 = c2;
  ok_curdata_inj : forall d1 d2 cd1 cd2,
    hp !! d1 = Some (BCurData cd1) -> hp !! d2 = Some (BCurData cd2) ->
    buffer cd1 = buffer cd2 -> d1 = d2
}.

(** * Inputs to run the hooks on *)

(** A host for running the hooks on concrete worlds: every window is on
    display 1, SDL_ShowCursor reports the cursor as hidden before, and the
    position of the pointer record follows the motion events. *)
Definition stub_host : Host :=
  mkHost (fun _ => Addr 1)
         (fun _ m => (0, m))
         (fun win _ _ x y m => mkMouse (focus m) (cur_cursor m) (mouseID m) x y)
         (fun _ _ _ m => m).

Definition empty_world : world := mkWorld ∅ [] None [].

Definition surface_2x3 : SDL_Surface :=
  mkSurface 2 3 SDL_PIXELFORMAT_ARGB8888 (Addr 99) 8.


Definition mouse_at_10_20 : SDL_Mouse := mkMouse (Addr 7) (Addr 1) 0 10 20.

Definition focused_world : world := mkWorld ∅ [] (Some mouse_at_10_20) [].

Definition unfocused_world : world :=
  mkWorld ∅ [] (Some (mkMouse NULL (Addr 1) 0 10 20)) [].

(** A cursor whose pixel buffer was never allocated. *)
Definition bufferless_world : world :=
  mkWorld (<[1%positive := BCursor (mkCursor NULL (Addr 2))]>
             (<[2%positive := BCurData zero_curdata]> ∅))
          [] None [].

(** The world after one cursor was made from [surface_2x3]. *)
Definition one_cursor_world : world :=
  mkWorld (created_heap surface_2x3 5 6 ∅) [] None
          [EPremultiplyAlpha 2 3 SDL_PIXELFORMAT_ARGB8888 (Addr 99) 8
             SDL_PIXELFORMAT_ARGB8888 (Addr 3) 8].


(** * Properties *)

(** ** The hooks on the inputs above *)

Example create_2x3 :
  MALI_CreateCursor surface_2x3 5 6 empty_world = Some (Addr 1, one_cursor_world).
Proof. vm_compute. reflexivity. Qed.

Example create_2x3_blocks :
  heap one_cursor_world !! 1%positive = Some (BCursor (mkCursor NULL (Addr 2))) /\
  heap one_cursor_world !! 2%positive =
    Some (BCurData (mkCursorData 5 6 2 3 (Addr 3) 24 2)) /\
  heap one_cursor_world !! 3%positive = Some (BBuffer 24).
Proof. repeat split; vm_compute; reflexivity. Qed.

Example free_2x3 :
  MALI_FreeCursor (Addr 1) one_cursor_world =
  Some (tt, mkWorld ∅ [] None
              [EPremultiplyAlpha 2 3 SDL_PIXELFORMAT_ARGB8888 (Addr 99) 8
                 SDL_PIXELFORMAT_ARGB8888 (Addr 3) 8;
               EFree 3; EFree 2; EFree 1]).
Proof. vm_compute. reflexivity. Qed.

Example free_twice_faults :
  (let* _ := MALI_FreeCursor (Addr 1) in MALI_FreeCursor (Addr 1))
    one_cursor_world = None.
Proof. vm_compute. reflexivity. Qed.

Example create_second_request_fails :
  MALI_CreateCursor surface_2x3 5 6 (set_oom_plan [false; true] empty_world) =
  Some (NULL, mkWorld ∅ [] None [EOutOfMemory; EFree 1]).
Proof. vm_compute. reflexivity. Qed.

Example int_mul_wraps : int_mul (int_mul 32768 32768) 4 = 0.
Proof. reflexivity. Qed.

Example create_negative_width_refused :
  MALI_CreateCursor (mkSurface (-1) 5 SDL_PIXELFORMAT_ARGB8888 (Addr 99) 4)
    0 0 empty_world =
  Some (NULL, mkWorld ∅ [] None [EOutOfMemory; EFree 2; EFree 1]).
Proof. vm_compute. reflexivity. Qed.

Example create_wrapped_size_overruns :
  int_mul (int_mul 65537 65537) 4 = 524292 /\
  MALI_CreateCursor
    (mkSurface 65537 65537 SDL_PIXELFORMAT_ARGB8888 (Addr 99) 262148)
    0 0 empty_world = None.
Proof. split; vm_compute; reflexivity. Qed.

Example int_mul_negative : int_mul (int_mul 30000 30000) 4 = -694967296.
Proof. reflexivity. Qed.

Example show_hides_on_NULL :
  @MALI_ShowCursor stub_host NULL focused_world = Some (0, focused_world).
Proof. reflexivity. Qed.

Example show_without_pointer :
  @MALI_ShowCursor stub_host (Addr 1) empty_world =
  Some (-1, mkWorld ∅ [] None [ESetError "No mouse."]).
Proof. reflexivity. Qed.

Example warp_focused :
  @MALI_WarpMouseGlobal stub_host 3 4 focused_world =
  Some (0, mkWorld ∅ [] (Some (mkMouse (Addr 7) (Addr 1) 0 3 4))
             [ESendMouseMotion (Addr 7) 0 0 3 4; EWarpMouseInWindow (Addr 7) 3 4]).
Proof. reflexivity. Qed.

Example warp_unfocused :
  @MALI_WarpMouseGlobal stub_host 3 4 unfocused_world =
  Some (-1, mkWorld ∅ [] (Some (mkMouse NULL (Addr 1) 0 10 20))
              [ESetError "No mouse or current cursor."]).
Proof. reflexivity. Qed.

(** ** Integers, addresses *)

Lemma wrap_int_id (z : Z) : in_int z -> wrap_int z = z.
Proof.
  unfold in_int, INT_MIN, INT_MAX, wrap_int. intros Hz.
  rewrite Z.mod_small; lia.
Qed.

Lemma int_mul_4_exact (a b : Z) :
  in_int (a * b * 4) -> int_mul (int_mul a b) 4 = a * b * 4.
Proof.
  intros Hab. unfold int_mul.
  rewrite (wrap_int_id (a * b)); [by apply wrap_int_id|].
  unfold in_int, INT_MIN, INT_MAX in *. lia.
Qed.

Lemma fresh_addr_None (hp : gmap positive block) : hp !! fresh_addr hp = None.
Proof. unfold fresh_addr. apply not_elem_of_dom. apply is_fresh. Qed.

Lemma fresh_addr_insert (a : positive) (x y : block) (hp : gmap positive block) :
  fresh_addr (<[a := x]> hp) = fresh_addr (<[a := y]> hp).
Proof. unfold fresh_addr. by rewrite !dom_insert_L. Qed.

Lemma created_addrs (hp : gmap positive block) :
  hp !! cursor_addr hp = None /\ hp !! curdata_addr hp = None /\
  hp !! buffer_addr hp = None /\
  cursor_addr hp <> curdata_addr hp /\ cursor_addr hp <> buffer_addr hp /\
  curdata_addr hp <> buffer_addr hp.
Proof.
  pose proof (fresh_addr_None hp) as Hc.
  pose proof (fresh_addr_None (<[cursor_addr hp := BCursor zero_cursor]> hp)) as Hd.
  pose proof (fresh_addr_None
    (<[curdata_addr hp := BCurData zero_curdata]>
       (<[cursor_addr hp := BCursor zero_cursor]> hp))) as Hb.
  fold (cursor_addr hp) in Hc. fold (curdata_addr hp) in Hd.
  fold (buffer_addr hp) in Hb.
  apply lookup_insert_None in Hd as [Hd Hcd].
  apply lookup_insert_None in Hb as [Hb Hdb].
  apply lookup_insert_None in Hb as [Hb Hcb].
  repeat split; assumption.
Qed.

(** ** Running the primitives

    One equation per primitive, for a world written out field by field and
    a heap whose outermost insertion is the block the primitive touches. *)

Section Run.

Context {B : Type}.
Implicit Types (k : unit -> M B) (hp : gmap positive block)
  (plan : list bool) (m : option SDL_Mouse) (tr : list event).

Lemma run_emit (e : event) k hp plan m tr :
  bind (emit e) k (mkWorld hp plan m tr) = k tt (mkWorld hp plan m (tr ++ [e])).
Proof. reflexivity. Qed.

Lemma run_SDL_OutOfMemory (k : Z -> M B) hp plan m tr :
  bind SDL_OutOfMemory k (mkWorld hp plan m tr) =
  k (-1) (mkWorld hp plan m (tr ++ [EOutOfMemory])).
Proof. reflexivity. Qed.

Lemma run_alloc_nil (b : block) (k : ptr -> M B) hp m tr :
  bind (alloc b) k (mkWorld hp [] m tr) =
  k (Addr (fresh_addr hp)) (mkWorld (<[fresh_addr hp := b]> hp) [] m tr).
Proof. reflexivity. Qed.

Lemma run_alloc_ok (b : block) (k : ptr -> M B) hp plan m tr :
  bind (alloc b) k (mkWorld hp (false :: plan) m tr) =
  k (Addr (fresh_addr hp)) (mkWorld (<[fresh_addr hp := b]> hp) plan m tr).
Proof. reflexivity. Qed.

Lemma run_alloc_fail (b : block) (k : ptr -> M B) hp plan m tr :
  bind (alloc b) k (mkWorld hp (true :: plan) m tr) =
  k NULL (mkWorld hp plan m tr).
Proof. reflexivity. Qed.

Lemma run_load_curdata (a : positive) (d : MALI_CursorData)
    (k : MALI_CursorData -> M B) hp plan m tr :
  bind (load_curdata (Addr a)) k (mkWorld (<[a := BCurData d]> hp) plan m tr) =
  k d (mkWorld (<[a := BCurData d]> hp) plan m tr).
Proof. unfold bind, load_curdata. simpl. by rewrite lookup_insert_eq. Qed.

Lemma run_store_cursor (a : positive) (c : SDL_Cursor)
    (f : SDL_Cursor -> SDL_Cursor) k hp plan m tr :
  bind (store_cursor (Addr a) f) k (mkWorld (<[a := BCursor c]> hp) plan m tr) =
  k tt (mkWorld (<[a := BCursor (f c)]> hp) plan m tr).
Proof.
  unfold bind, store_cursor. simpl.
  by rewrite lookup_insert_eq, insert_insert_eq.
Qed.

Lemma run_store_curdata (a : positive) (d : MALI_CursorData)
    (f : MALI_CursorData -> MALI_CursorData) k hp plan m tr :
  bind (store_curdata (Addr a) f) k (mkWorld (<[a := BCurData d]> hp) plan m tr) =
  k tt (mkWorld (<[a := BCurData (f d)]> hp) plan m tr).
Proof.
  unfold bind, store_curdata. simpl.
  by rewrite lookup_insert_eq, insert_insert_eq.
Qed.

Lemma run_SDL_free (a : positive) (x : block) k hp plan m tr :
  bind (SDL_free (Addr a)) k (mkWorld (<[a := x]> hp) plan m tr) =
  k tt (mkWorld (delete a hp) plan m (tr ++ [EFree a])).
Proof.
  unfold bind, SDL_free. simpl.
  by rewrite lookup_insert_eq, delete_insert_eq.
Qed.

End Run.

(** Reduces the tests on pointers that guard the branches of the hooks. *)
Ltac branch :=
  cbv beta iota zeta delta
    [is_null negb buffer set_buffer driverdata set_driverdata].

Ltac run_alloc := first [rewrite run_alloc_nil | rewrite run_alloc_ok]; branch.

Ltac run_stores := rewrite !run_store_curdata, ?run_load_curdata; branch.

Lemma wrap_int_range (z : Z) : in_int (wrap_int z).
Proof.
  unfold in_int, INT_MIN, INT_MAX, wrap_int.
  pose proof (Z.mod_pos_bound (z + 2 ^ 31) (2 ^ 32)). lia.
Qed.

Lemma to_size_t_int (z : Z) :
  in_int z -> (PTRDIFF_MAX <? to_size_t z) = false -> 0 <= z /\ to_size_t z = z.
Proof.
  unfold in_int, INT_MIN, INT_MAX, PTRDIFF_MAX, to_size_t.
  intros Hz Hsmall%Z.ltb_ge.
  destruct (Z.lt_ge_cases z 0) as [Hneg|Hpos].
  - replace z with (z + 2 ^ 64 + (-1) * 2 ^ 64) in Hsmall by lia.
    rewrite Z.mod_add, Z.mod_small in Hsmall; lia.
  - rewrite Z.mod_small; lia.
Qed.

(** The two tests a successful MALI_CreateCursor passes, the request that
    SDL_malloc does not refuse and the conversion that stays inside the
    buffer, hold together exactly for the surfaces that fit. *)
Lemma surface_fits_tests (surface : SDL_Surface) :
  let bs := int_mul (int_mul (surface_w surface) (surface_h surface)) 4 in
  surface_fits surface <->
  (PTRDIFF_MAX <? to_size_t bs) = false /\
  conversion_valid (surface_w surface) (surface_h surface)
    (int_mul (surface_w surface) 4) (to_size_t bs) = true.
Proof.
  destruct surface as [sw sh fmt px pitch]. simpl.
  unfold surface_fits, conversion_valid. simpl. split.
  - intros (Hw & Hh & Hrow & Hall).
    assert (0 <= sw * sh) by (by apply Z.mul_nonneg_nonneg).
    rewrite int_mul_4_exact by (unfold in_int, INT_MIN, INT_MAX in *; lia).
    unfold int_mul.
    rewrite !(wrap_int_id (sw * 4)) by (unfold in_int, INT_MIN, INT_MAX in *; lia).
    unfold to_size_t, PTRDIFF_MAX, INT_MAX in *.
    rewrite Z.mod_small by lia. split; [apply Z.ltb_ge; lia|].
    repeat (apply andb_true_intro; split); apply Z.leb_le; lia.
  - intros [Hsmall Hvalid].
    apply to_size_t_int in Hsmall as [Hpos Heq]; [|apply wrap_int_range].
    rewrite Heq in Hvalid.
    apply andb_prop in Hvalid as [Hvalid Hall%Z.leb_le].
    apply andb_prop in Hvalid as [Hvalid Hrow%Z.leb_le].
    apply andb_prop in Hvalid as [Hw%Z.leb_le Hh%Z.leb_le].
    pose proof (wrap_int_range (sw * 4)) as [_ Hp]. unfold int_mul in Hrow, Hall.
    rewrite (wrap_int_id (sw * 4)) in Hall
      by (unfold in_int, INT_MIN, INT_MAX in *; lia).
    pose proof (wrap_int_range (wrap_int (sw * sh) * 4)) as [_ Hb].
    unfold int_mul in Hall. unfold INT_MAX in *. repeat split; lia.
Qed.

Lemma run_refuse {B : Type} (k : ptr -> M B) (hp : gmap positive block)
    (plan : list bool) (m : option SDL_Mouse) (tr : list event) :
  bind refuse k (mkWorld hp plan m tr) = k NULL (mkWorld hp (tail plan) m tr).
Proof. reflexivity. Qed.

Lemma run_SDL_malloc_fail {B : Type} (size : Z) (k : ptr -> M B)
    (hp : gmap positive block) (plan : list bool) (m : option SDL_Mouse)
    (tr : list event) :
  bind (SDL_malloc size) k (mkWorld hp (true :: plan) m tr) =
  k NULL (mkWorld hp plan m tr).
Proof. unfold SDL_malloc. by destruct (PTRDIFF_MAX <? to_size_t size). Qed.

Lemma run_SDL_PremultiplyAlpha {B : Type} (width height fmt : Z) (src : ptr)
    (src_pitch dst_fmt : Z) (b : positive) (dst_pitch n : Z) (k : unit -> M B)
    (hp : gmap positive block) (plan : list bool) (m : option SDL_Mouse)
    (tr : list event) :
  hp !! b = Some (BBuffer n) ->
  bind (SDL_PremultiplyAlpha width height fmt src src_pitch dst_fmt (Addr b)
          dst_pitch) k (mkWorld hp plan m tr) =
  if conversion_valid width height dst_pitch n
  then k tt (mkWorld hp plan m
               (tr ++ [EPremultiplyAlpha width height fmt src src_pitch
                         dst_fmt (Addr b) dst_pitch]))
  else None.
Proof.
  intros Hb. unfold bind, SDL_PremultiplyAlpha. simpl. rewrite Hb.
  by destruct (conversion_valid width height dst_pitch n).
Qed.

Lemma run_ret {A B : Type} (a : A) (k : A -> M B) (σ : world) :
  bind (ret a) k σ = k a σ.
Proof. reflexivity. Qed.

Lemma bind_assoc {A B C : Type} (m : M A) (f : A -> M B) (g : B -> M C)
    (σ : world) :
  bind (bind m f) g σ = bind m (fun a => bind (f a) g) σ.
Proof. unfold bind. by destruct (m σ) as [[a σ']|]. Qed.

(** What MALI_CreateCursor does once its three requests are through the
    plan: SDL_malloc refuses the size, or the conversion leaves the buffer,
    or the cursor is made. *)
Lemma MALI_CreateCursor_allocated (surface : SDL_Surface) (hot_x hot_y : Z)
    (σ : world) :
  allocs_succeed 3 (oom_plan σ) = true ->
  let n := to_size_t
             (int_mul (int_mul (surface_w surface) (surface_h surface)) 4) in
  MALI_CreateCursor surface hot_x hot_y σ =
    if PTRDIFF_MAX <? n then
      Some (NULL,
            mkWorld (heap σ) (drop 3 (oom_plan σ)) (mouse σ)
                    (trace σ ++ [EOutOfMemory; EFree (curdata_addr (heap σ));
                                 EFree (cursor_addr (heap σ))]))
    else if conversion_valid (surface_w surface) (surface_h surface)
              (int_mul (surface_w surface) 4) n then
      Some (Addr (cursor_addr (heap σ)),
            mkWorld
              (<[cursor_addr (heap σ) :=
                   BCursor (mkCursor NULL (Addr (curdata_addr (heap σ))))]>
                 (<[curdata_addr (heap σ) :=
                      BCurData (created_curdata surface hot_x hot_y
                                  (buffer_addr (heap σ)))]>
                    (<[buffer_addr (heap σ) := BBuffer n]> (heap σ))))
              (drop 3 (oom_plan σ)) (mouse σ)
              (trace σ ++
               [EPremultiplyAlpha (surface_w surface) (surface_h surface)
                  (surface_format surface) (surface_pixels surface)
                  (surface_pitch surface) SDL_PIXELFORMAT_ARGB8888
                  (Addr (buffer_addr (heap σ)))
                  (int_mul (surface_w surface) 4)]))
    else None.
Proof.
  destruct σ as [hp plan m tr]. simpl. intros Hplan.
  destruct (created_addrs hp) as (Hc & Hd & Hb & Hcd & Hcb & Hdb).
  assert (Hd' : <[cursor_addr hp := BCursor zero_cursor]> hp !! curdata_addr hp = None)
    by apply fresh_addr_None.
  unfold MALI_CreateCursor, SDL_calloc_cursor, SDL_calloc_curdata, cleanup.
  destruct plan as [|[] [|[] [|[] plan]]]; try discriminate Hplan.
  all: run_alloc; run_alloc; fold (cursor_addr hp); fold (curdata_addr hp).
  all: run_stores; cbn [buffer_size set_buffer_size]; unfold SDL_malloc.
  all: cbv zeta;
    destruct (PTRDIFF_MAX <? to_size_t
                (int_mul (int_mul (surface_w surface) (surface_h surface)) 4)).
  all: try (rewrite run_refuse;
    repeat first
      [ rewrite run_SDL_OutOfMemory | rewrite run_store_curdata
      | rewrite run_load_curdata | rewrite run_SDL_free | rewrite run_ret
      | rewrite bind_assoc | progress branch
      | rewrite (delete_id _ _ Hd') | rewrite (delete_id _ _ Hc) ];
    rewrite <- ?app_assoc; reflexivity).
  all: run_alloc.
  all: rewrite (fresh_addr_insert (curdata_addr hp) _ (BCurData zero_curdata)).
  all: fold (buffer_addr hp).
  all: rewrite (insert_insert_ne _ (buffer_addr hp) (curdata_addr hp)) by done.
  all: run_stores.
  all: erewrite run_SDL_PremultiplyAlpha
    by (rewrite lookup_insert_ne by done; apply lookup_insert_eq).
  all: destruct (conversion_valid _ _ _ _); [|reflexivity].
  all: rewrite (insert_insert_ne _ (buffer_addr hp) (cursor_addr hp)) by done.
  all: rewrite (insert_insert_ne _ (curdata_addr hp) (cursor_addr hp)) by done.
  all: rewrite run_store_cursor; branch.
  all: reflexivity.
Qed.

Lemma MALI_CreateCursor_success (surface : SDL_Surface) (hot_x hot_y : Z)
    (σ : world) :
  allocs_succeed 3 (oom_plan σ) = true ->
  surface_fits surface ->
  MALI_CreateCursor surface hot_x hot_y σ =
    Some (Addr (cursor_addr (heap σ)),
          mkWorld (created_heap surface hot_x hot_y (heap σ))
                  (drop 3 (oom_plan σ)) (mouse σ)
                  (trace σ ++
                   [EPremultiplyAlpha (surface_w surface) (surface_h surface)
                      (surface_format surface) (surface_pixels surface)
                      (surface_pitch surface) SDL_PIXELFORMAT_ARGB8888
                      (Addr (buffer_addr (heap σ)))
                      (int_mul (surface_w surface) 4)])).
Proof.
  intros Hplan Hfits. rewrite MALI_CreateCursor_allocated by done. cbv zeta.
  apply surface_fits_tests in Hfits as [Hsmall Hvalid]. cbv zeta in Hsmall, Hvalid.
  rewrite Hsmall, Hvalid.
  apply to_size_t_int in Hsmall as [_ ->]; [done|apply wrap_int_range].
Qed.

(** With the requests through the plan and a surface that does not fit,
    MALI_CreateCursor makes no cursor: it returns NULL, the heap as it was,
    or it faults. *)
Lemma MALI_CreateCursor_unfit (surface : SDL_Surface) (hot_x hot_y : Z)
    (σ : world) :
  allocs_succeed 3 (oom_plan σ) = true ->
  ~ surface_fits surface ->
  MALI_CreateCursor surface hot_x hot_y σ = None \/
  MALI_CreateCursor surface hot_x hot_y σ =
    Some (NULL,
          mkWorld (heap σ) (drop 3 (oom_plan σ)) (mouse σ)
                  (trace σ ++ [EOutOfMemory; EFree (curdata_addr (heap σ));
                               EFree (cursor_addr (heap σ))])).
Proof.
  intros Hplan Hunfit. rewrite MALI_CreateCursor_allocated by done. cbv zeta.
  destruct (PTRDIFF_MAX <? _) eqn:Hsmall; [by right|].
  destruct (conversion_valid _ _ _ _) eqn:Hvalid; [|by left].
  destruct Hunfit. by apply surface_fits_tests.
Qed.

Lemma MALI_CreateCursor_failure (surface : SDL_Surface) (hot_x hot_y : Z)
    (σ : world) (k : nat) :
  first_failure (oom_plan σ) = Some k -> (k < 3)%nat ->
  MALI_CreateCursor surface hot_x hot_y σ =
    Some (NULL,
          mkWorld (heap σ) (drop (S k) (oom_plan σ)) (mouse σ)
                  (trace σ ++ EOutOfMemory :: (EFree <$> freed_on_failure k (heap σ)))).
Proof.
  destruct σ as [hp plan m tr]. simpl. intros Hplan Hk.
  destruct (created_addrs hp) as (Hc & Hd & Hb & Hcd & Hcb & Hdb).
  unfold MALI_CreateCursor, SDL_calloc_cursor, SDL_calloc_curdata, cleanup.
  assert (Hd' : <[cursor_addr hp := BCursor zero_cursor]> hp !! curdata_addr hp = None)
    by apply fresh_addr_None.
  destruct plan as [|[] [|[] [|[] plan]]]; simpl in Hplan;
    try destruct (first_failure plan); simplify_eq/=; try lia.
  all: repeat first
    [ rewrite run_SDL_malloc_fail
    | rewrite run_alloc_fail | rewrite run_alloc_ok | rewrite run_alloc_nil
    | rewrite run_SDL_OutOfMemory | rewrite run_store_curdata
    | rewrite run_load_curdata | rewrite run_SDL_free | rewrite run_ret
    | rewrite bind_assoc | progress branch
    | progress fold (cursor_addr hp) | progress fold (curdata_addr hp)
    | rewrite (delete_id _ _ Hd') | rewrite (delete_id _ _ Hc) ].
  all: rewrite <- ?app_assoc; reflexivity.
Qed.

Lemma allocs_succeed_or_fail (plan : list bool) :
  allocs_succeed 3 plan = true \/
  exists k : nat, first_failure plan = Some k /\ (k < 3)%nat.
Proof.
  destruct plan as [|[] [|[] [|[] plan]]]; simpl; eauto 6 with lia.
Qed.

(** ** What MALI_CreateCursor leaves behind when it returns *)

Lemma MALI_CreateCursor_inv (surface : SDL_Surface) (hot_x hot_y : Z)
    (σ σ' : world) (c : positive) :
  MALI_CreateCursor surface hot_x hot_y σ = Some (Addr c, σ') ->
  c = cursor_addr (heap σ) /\
  σ' = mkWorld (created_heap surface hot_x hot_y (heap σ))
               (drop 3 (oom_plan σ)) (mouse σ)
               (trace σ ++
                [EPremultiplyAlpha (surface_w surface) (surface_h surface)
                   (surface_format surface) (surface_pixels surface)
                   (surface_pitch surface) SDL_PIXELFORMAT_ARGB8888
                   (Addr (buffer_addr (heap σ)))
                   (int_mul (surface_w surface) 4)]).
Proof.
  destruct (allocs_succeed_or_fail (oom_plan σ)) as [Hs|(k & Hk & Hlt)].
  - destruct (decide (surface_fits surface)) as [Hfits|Hunfit].
    + rewrite MALI_CreateCursor_success by done. by intros [= <- <-].
    + destruct (MALI_CreateCursor_unfit surface hot_x hot_y σ Hs Hunfit)
        as [-> | ->]; discriminate.
  - rewrite (MALI_CreateCursor_failure _ _ _ _ k) by done. discriminate.
Qed.

(** A cursor is only ever made from a surface that fits. *)
Lemma MALI_CreateCursor_inv_fits (surface : SDL_Surface) (hot_x hot_y : Z)
    (σ σ' : world) (c : positive) :
  MALI_CreateCursor surface hot_x hot_y σ = Some (Addr c, σ') ->
  surface_fits surface /\ allocs_succeed 3 (oom_plan σ) = true.
Proof.
  destruct (allocs_succeed_or_fail (oom_plan σ)) as [Hs|(k & Hk & Hlt)].
  - destruct (decide (surface_fits surface)) as [Hfits|Hunfit]; [done|].
    destruct (MALI_CreateCursor_unfit surface hot_x hot_y σ Hs Hunfit)
      as [-> | ->]; discriminate.
  - rewrite (MALI_CreateCursor_failure _ _ _ _ k) by done. discriminate.
Qed.

Lemma MALI_CreateCursor_NULL (surface : SDL_Surface) (hot_x hot_y : Z)
    (σ σ' : world) :
  MALI_CreateCursor surface hot_x hot_y σ = Some (NULL, σ') ->
  heap σ' = heap σ /\ mouse σ' = mouse σ.
Proof.
  destruct (allocs_succeed_or_fail (oom_plan σ)) as [Hs|(k & Hk & Hlt)].
  - destruct (decide (surface_fits surface)) as [Hfits|Hunfit].
    + rewrite MALI_CreateCursor_success by done. discriminate.
    + destruct (MALI_CreateCursor_unfit surface hot_x hot_y σ Hs Hunfit)
        as [-> | ->]; [discriminate|]. by intros [= <-].
  - rewrite (MALI_CreateCursor_failure _ _ _ _ k) by done. by intros [= <-].
Qed.

(** ** MALI_FreeCursor on a cursor that owns its blocks *)

Lemma MALI_FreeCursor_live (σ : world) (c d : positive) (cur : SDL_Cursor)
    (cd : MALI_CursorData) :
  heap σ !! c = Some (BCursor cur) ->
  driverdata cur = Addr d ->
  heap σ !! d = Some (BCurData cd) ->
  (forall b, buffer cd = Addr b -> exists n, heap σ !! b = Some (BBuffer n)) ->
  MALI_FreeCursor (Addr c) σ =
    Some (tt, mkWorld (freed_heap c d (buffer cd) (heap σ)) (oom_plan σ)
                (mouse σ) (trace σ ++ free_events c d (buffer cd))).
Proof.
  destruct σ as [hp plan m tr], cur as [nx dd]. simpl.
  intros Hc -> Hd Hb.
  assert (Hcd : c <> d) by congruence.
  unfold MALI_FreeCursor, freed_heap, free_events, bind, load_cursor,
    load_curdata, store_curdata, SDL_free, ret; simpl.
  rewrite Hc; simpl. rewrite Hd; simpl.
  destruct (buffer cd) as [|b] eqn:Hbuf; simpl.
  - rewrite Hc; simpl. rewrite Hd; simpl.
    rewrite lookup_delete_ne, Hc by done.
    unfold log, set_heap; simpl. by rewrite <- app_assoc.
  - destruct (Hb b eq_refl) as [n Hn]. rewrite Hn; simpl.
    assert (b <> d) by congruence. assert (b <> c) by congruence.
    rewrite lookup_delete_ne, Hd by done; simpl.
    rewrite lookup_insert_ne, lookup_delete_ne, Hc by done; simpl.
    rewrite lookup_insert_eq; simpl.
    rewrite delete_insert_eq.
    rewrite !lookup_delete_ne, Hc by done.
    unfold log, set_heap; simpl. by rewrite <- !app_assoc.
Qed.

Lemma heap_ok_empty : heap_ok ∅.
Proof. split; intros *; rewrite lookup_empty; discriminate. Qed.

Lemma created_heap_old (surface : SDL_Surface) (hot_x hot_y : Z)
    (hp : gmap positive block) (a : positive) (x : block) :
  hp !! a = Some x -> created_heap surface hot_x hot_y hp !! a = Some x.
Proof.
  intros Ha. destruct (created_addrs hp) as (Hc & Hd & Hb & _).
  unfold created_heap.
  by rewrite !lookup_insert_ne by (intros <-; congruence).
Qed.

Lemma created_heap_inv (surface : SDL_Surface) (hot_x hot_y : Z)
    (hp : gmap positive block) (a : positive) (x : block) :
  created_heap surface hot_x hot_y hp !! a = Some x ->
  (a = cursor_addr hp /\ x = BCursor (mkCursor NULL (Addr (curdata_addr hp)))) \/
  (a = curdata_addr hp /\
   x = BCurData (created_curdata surface hot_x hot_y (buffer_addr hp))) \/
  (a = buffer_addr hp /\
   x = BBuffer (int_mul (int_mul (surface_w surface) (surface_h surface)) 4)) \/
  hp !! a = Some x.
Proof.
  unfold created_heap. rewrite !lookup_insert_Some. intuition auto.
Qed.

Lemma created_heap_new (surface : SDL_Surface) (hot_x hot_y : Z)
    (hp : gmap positive block) :
  created_heap surface hot_x hot_y hp !! cursor_addr hp =
    Some (BCursor (mkCursor NULL (Addr (curdata_addr hp)))) /\
  created_heap surface hot_x hot_y hp !! curdata_addr hp =
    Some (BCurData (created_curdata surface hot_x hot_y (buffer_addr hp))) /\
  created_heap surface hot_x hot_y hp !! buffer_addr hp =
    Some (BBuffer (int_mul (int_mul (surface_w surface) (surface_h surface)) 4)).
Proof.
  destruct (created_addrs hp) as (_ & _ & _ & Hcd & Hcb & Hdb).
  unfold created_heap. repeat split.
  - by rewrite lookup_insert_eq.
  - rewrite lookup_insert_ne by done. by rewrite lookup_insert_eq.
  - rewrite !lookup_insert_ne by done. by rewrite lookup_insert_eq.
Qed.

Lemma heap_ok_created (surface : SDL_Surface) (hot_x hot_y : Z)
    (hp : gmap positive block) :
  heap_ok hp -> heap_ok (created_heap surface hot_x hot_y hp).
Proof.
  intros [H1 H2 H3 H4].
  destruct (created_addrs hp) as (Hc & Hd & Hb & Hcd & Hcb & Hdb).
  destruct (created_heap_new surface hot_x hot_y hp) as (Nc & Nd & Nb).
  pose proof (created_heap_old surface hot_x hot_y hp) as Hold.
  split.
  - intros c cur [[-> [= ->]]|[[-> ?]|[[-> ?]|Hin]]]%created_heap_inv;
      try discriminate.
    + eauto.
    + destruct (H1 _ _ Hin) as (d & cd & ? & ?). eauto.
  - intros d cd [[-> ?]|[[-> [= ->]]|[[-> ?]|Hin]]]%created_heap_inv;
      try discriminate.
    + eauto.
    + destruct (H2 _ _ Hin) as (b & ? & ? & ?). eauto.
  - intros c1 c2 cur1 cur2
      [[-> [= ->]]|[[-> ?]|[[-> ?]|Hin1]]]%created_heap_inv
      [[-> [= ->]]|[[-> ?]|[[-> ?]|Hin2]]]%created_heap_inv;
      try discriminate; simpl; try done.
    + intros Heq. destruct (H1 _ _ Hin2) as (d & cd & ? & ?). congruence.
    + intros Heq. destruct (H1 _ _ Hin1) as (d & cd & ? & ?). congruence.
    + eauto.
  - intros d1 d2 cd1 cd2
      [[-> ?]|[[-> [= ->]]|[[-> ?]|Hin1]]]%created_heap_inv
      [[-> ?]|[[-> [= ->]]|[[-> ?]|Hin2]]]%created_heap_inv;
      try discriminate; simpl; try done.
    + intros Heq. destruct (H2 _ _ Hin2) as (b & ? & ? & ?). congruence.
    + intros Heq. destruct (H2 _ _ Hin1) as (b & ? & ? & ?). congruence.
    + eauto.
Qed.

Lemma freed_heap_lookup (c d b a : positive) (x : block)
    (hp : gmap positive block) :
  freed_heap c d (Addr b) hp !! a = Some x <->
  a <> c /\ a <> d /\ a <> b /\ hp !! a = Some x.
Proof.
  unfold freed_heap. rewrite !lookup_delete_Some. intuition congruence.
Qed.

Lemma heap_ok_freed (c d b : positive) (cur : SDL_Cursor)
    (cd : MALI_CursorData) (hp : gmap positive block) :
  heap_ok hp ->
  hp !! c = Some (BCursor cur) -> driverdata cur = Addr d ->
  hp !! d = Some (BCurData cd) -> buffer cd = Addr b ->
  heap_ok (freed_heap c d (Addr b) hp).
Proof.
  intros [H1 H2 H3 H4] Hc Hcur Hd Hbuf.
  split.
  - intros c' cur' (? & ? & ? & Hin)%freed_heap_lookup.
    destruct (H1 _ _ Hin) as (d' & cd' & Hcur' & Hd').
    exists d', cd'. split; [done|]. apply freed_heap_lookup.
    repeat split; [congruence| |  |done].
    + intros ->. apply (H3 c' c cur' cur) in Hc; congruence.
    + intros ->. destruct (H2 _ _ Hd) as (b' & ? & ? & ?). congruence.
  - intros d' cd' (? & ? & ? & Hin)%freed_heap_lookup.
    destruct (H2 _ _ Hin) as (b' & Hbuf' & Hb' & Hsz).
    exists b'. repeat split; [done| |done]. apply freed_heap_lookup.
    repeat split; [congruence|congruence| |done].
    intros ->. apply (H4 d' d cd' cd) in Hd; congruence.
  - intros c1 c2 cur1 cur2 (_ & _ & _ & ?)%freed_heap_lookup
      (_ & _ & _ & ?)%freed_heap_lookup. eauto.
  - intros d1 d2 cd1 cd2 (_ & _ & _ & ?)%freed_heap_lookup
      (_ & _ & _ & ?)%freed_heap_lookup. eauto.
Qed.

(** MALI_FreeCursor on a cursor fresh from MALI_CreateCursor gives back
    the heap in which the cursor was made. *)
Lemma freed_created_heap (surface : SDL_Surface) (hot_x hot_y : Z)
    (hp : gmap positive block) :
  freed_heap (cursor_addr hp) (curdata_addr hp) (Addr (buffer_addr hp))
    (created_heap surface hot_x hot_y hp) = hp.
Proof.
  destruct (created_addrs hp) as (Hc & Hd & Hb & Hcd & Hcb & Hdb).
  unfold freed_heap, created_heap.
  rewrite !(delete_insert_ne _ (buffer_addr hp)) by done.
  rewrite (delete_insert_id _ _ _ Hb).
  rewrite (delete_insert_ne _ (curdata_addr hp)) by done.
  rewrite (delete_insert_id _ _ _ Hd).
  by rewrite (delete_insert_id _ _ _ Hc).
Qed.

Lemma MALI_CreateCursor_then_FreeCursor (surface : SDL_Surface)
    (hot_x hot_y : Z) (σ σ' : world) (c : positive) :
  MALI_CreateCursor surface hot_x hot_y σ = Some (Addr c, σ') ->
  exists σ'', MALI_FreeCursor (Addr c) σ' = Some (tt, σ'') /\ heap σ'' = heap σ.
Proof.
  intros [-> ->]%MALI_CreateCursor_inv.
  destruct (created_heap_new surface hot_x hot_y (heap σ)) as (Nc & Nd & Nb).
  eexists. split.
  - eapply MALI_FreeCursor_live; simpl; try done.
    intros b [= <-]. eauto.
  - simpl. apply freed_created_heap.
Qed.

(** ** The hooks that leave the heap alone *)

Section Pointer.

Context {host : Host}.

Lemma MALI_ShowCursor_run (cursor : ptr) (σ : world) :
  MALI_ShowCursor cursor σ =
  Some (match mouse σ with
        | None => (-1, log (ESetError "No mouse.") σ)
        | Some m =>
            if is_null (focus m) || is_null cursor
               || is_null (host_GetDisplayForWindow (focus m))
            then (0, σ)
            else ((host_ShowCursor 1 m).1,
                  set_mouse (Some (host_ShowCursor 1 m).2)
                            (log (EShowCursor 1) σ))
        end).
Proof.
  destruct σ as [hp plan [m|] tr]; [|reflexivity].
  unfold MALI_ShowCursor, bind, SDL_GetMouse; simpl.
  destruct (focus m) as [|win] eqn:Hf; [reflexivity|].
  destruct cursor as [|c]; [reflexivity|]. simpl.
  unfold SDL_GetDisplayForWindow, ret; simpl.
  destruct (host_GetDisplayForWindow (Addr win)); [reflexivity|]. simpl.
  unfold SDL_ShowCursor, bind, emit, on_mouse; simpl.
  by destruct (host_ShowCursor 1 m).
Qed.

Lemma MALI_WarpMouseGlobal_run (x y : Z) (σ : world) :
  MALI_WarpMouseGlobal x y σ =
  Some (match mouse σ with
        | Some m =>
            if negb (is_null (cur_cursor m)) && negb (is_null (focus m))
            then (0, set_mouse
                       (Some (host_WarpMouseInWindow (focus m) x y
                                (host_SendMouseMotion (focus m) (mouseID m) 0 x y m)))
                       (log (EWarpMouseInWindow (focus m) x y)
                          (log (ESendMouseMotion (focus m) (mouseID m) 0 x y) σ)))
            else (-1, log (ESetError "No mouse or current cursor.") σ)
        | None => (-1, log (ESetError "No mouse or current cursor.") σ)
        end).
Proof.
  destruct σ as [hp plan [m|] tr]; [|reflexivity].
  unfold MALI_WarpMouseGlobal, bind, SDL_GetMouse; simpl.
  by destruct (negb (is_null (cur_cursor m)) && negb (is_null (focus m))).
Qed.

Lemma MALI_MoveCursor_run (cursor : ptr) (σ : world) :
  MALI_MoveCursor cursor σ = Some (tt, σ).
Proof.
  unfold MALI_MoveCursor, bind, SDL_GetMouse.
  destruct (mouse σ) as [m|]; [|reflexivity].
  by destruct (negb (is_null (cur_cursor m)) && negb (is_null (focus m))).
Qed.

Lemma MALI_ShowCursor_heap (cursor : ptr) (σ σ' : world) (r : Z) :
  MALI_ShowCursor cursor σ = Some (r, σ') -> heap σ' = heap σ.
Proof.
  rewrite MALI_ShowCursor_run. intros [= Heq].
  destruct (mouse σ) as [m|]; [destruct (_ || _)|]; by injection Heq as _ <-.
Qed.

Lemma MALI_WarpMouseGlobal_heap (x y : Z) (σ σ' : world) (r : Z) :
  MALI_WarpMouseGlobal x y σ = Some (r, σ') -> heap σ' = heap σ.
Proof.
  rewrite MALI_WarpMouseGlobal_run. intros [= Heq].
  destruct (mouse σ) as [m|]; [destruct (_ && _)|]; by injection Heq as _ <-.
Qed.

Lemma MALI_CreateCursor_heap_ok (surface : SDL_Surface) (hot_x hot_y : Z)
    (σ σ' : world) (r : ptr) :
  heap_ok (heap σ) ->
  MALI_CreateCursor surface hot_x hot_y σ = Some (r, σ') ->
  heap_ok (heap σ').
Proof.
  intros Hok Hrun. destruct r as [|c].
  - apply MALI_CreateCursor_NULL in Hrun as [-> _]. done.
  - apply MALI_CreateCursor_inv in Hrun as [_ ->]. simpl.
    by apply heap_ok_created.
Qed.

Lemma MALI_FreeCursor_heap_ok (a : positive) (cur : SDL_Cursor) (σ : world) :
  heap_ok (heap σ) -> heap σ !! a = Some (BCursor cur) ->
  exists σ', MALI_FreeCursor (Addr a) σ = Some (tt, σ') /\ heap_ok (heap σ').
Proof.
  intros Hok Ha.
  destruct (ok_cursor _ Hok _ _ Ha) as (d & cd & Hcur & Hd).
  destruct (ok_curdata _ Hok _ _ Hd) as (b & Hbuf & Hb & Hsz).
  eexists. split.
  - apply (MALI_FreeCursor_live σ a d cur cd); try done.
    intros b' Hb'. exists (buffer_size cd). congruence.
  - simpl. rewrite Hbuf. by apply (heap_ok_freed a d b cur cd).
Qed.

Lemma step_heap_ok (σ σ' : world) :
  heap_ok (heap σ) -> step σ σ' -> heap_ok (heap σ').
Proof.
  intros Hok Hstep.
  destruct Hstep as [c σ1 σ2 Hallowed Hrun | plan m σ1]; [|exact Hok].
  destruct c as [surface hx hy|cursor|cursor|[|a]|window x y|x y];
    simpl in Hrun, Hallowed.
  - unfold bind in Hrun.
    destruct (MALI_CreateCursor surface hx hy σ1) as [[r σ3]|] eqn:Hc;
      [|discriminate].
    injection Hrun as <-. by apply (MALI_CreateCursor_heap_ok _ _ _ _ _ _ Hok Hc).
  - unfold bind in Hrun.
    destruct (MALI_ShowCursor cursor σ1) as [[r σ3]|] eqn:Hc; [|discriminate].
    injection Hrun as <-. by rewrite (MALI_ShowCursor_heap _ _ _ _ Hc).
  - rewrite MALI_MoveCursor_run in Hrun. by injection Hrun as <-.
  - by injection Hrun as <-.
  - destruct Hallowed as [cur Ha].
    destruct (MALI_FreeCursor_heap_ok a cur σ1 Hok Ha) as (σ3 & Hf & Hok').
    congruence.
  - unfold MALI_WarpMouse, bind in Hrun.
    destruct (MALI_WarpMouseGlobal x y σ1) as [[r σ3]|] eqn:Hc; [|discriminate].
    injection Hrun as <-. by rewrite (MALI_WarpMouseGlobal_heap _ _ _ _ _ Hc).
  - unfold bind in Hrun.
    destruct (MALI_WarpMouseGlobal x y σ1) as [[r σ3]|] eqn:Hc; [|discriminate].
    injection Hrun as <-. by rewrite (MALI_WarpMouseGlobal_heap _ _ _ _ _ Hc).
Qed.

Lemma reachable_heap_ok (σ : world) : reachable σ -> heap_ok (heap σ).
Proof.
  induction 1 as [σ Hempty | σ σ' _ IH Hstep].
  - rewrite Hempty. apply heap_ok_empty.
  - by apply (step_heap_ok σ σ').
Qed.

(** No allowed call whose surface fits faults in a reachable world. *)
Lemma reachable_progress (σ : world) (c : call) :
  reachable σ -> allowed σ c -> call_fits c ->
  exists σ', run_call c σ = Some (tt, σ').
Proof.
  intros Hok%reachable_heap_ok Hallowed Hfits.
  destruct c as [surface hx hy|cursor|cursor|[|a]|window x y|x y]; simpl.
  - unfold bind. simpl in Hfits.
    destruct (allocs_succeed_or_fail (oom_plan σ)) as [Hs|(k & Hk & Hlt)].
    + rewrite MALI_CreateCursor_success by done. unfold ret; eauto.
    + rewrite (MALI_CreateCursor_failure _ _ _ _ k) by done. unfold ret; eauto.
  - unfold bind. rewrite MALI_ShowCursor_run.
    destruct (mouse σ) as [m|]; [destruct (_ || _)|]; unfold ret; eauto.
  - rewrite MALI_MoveCursor_run. eauto.
  - eauto.
  - destruct Hallowed as [cur Ha].
    destruct (MALI_FreeCursor_heap_ok a cur σ Hok Ha) as (σ' & Hf & _). eauto.
  - unfold MALI_WarpMouse, bind. rewrite MALI_WarpMouseGlobal_run.
    destruct (mouse σ) as [m|]; [destruct (_ && _)|]; unfold ret; eauto.
  - unfold bind. rewrite MALI_WarpMouseGlobal_run.
    destruct (mouse σ) as [m|]; [destruct (_ && _)|]; unfold ret; eauto.
Qed.

End Pointer.

(** * The properties C1 to C10 of the specification *)

(** C1. When one of the three allocations of MALI_CreateCursor fails, the
    hook reports SDL_OutOfMemory once, frees exactly the blocks it had
    obtained before (none twice, none that was live before the call),
    returns NULL without a fault and leaves the heap as it found it. *)
Theorem MALI_CreateCursor_out_of_memory (surface : SDL_Surface)
    (hot_x hot_y : Z) (σ : world) (k : nat) :
  first_failure (oom_plan σ) = Some k -> (k < 3)%nat ->
  exists σ',
    MALI_CreateCursor surface hot_x hot_y σ = Some (NULL, σ') /\
    heap σ' = heap σ /\
    trace σ' =
      trace σ ++ EOutOfMemory :: (EFree <$> freed_on_failure k (heap σ)) /\
    NoDup (freed_on_failure k (heap σ)) /\
    (forall a, a ∈ freed_on_failure k (heap σ) -> heap σ !! a = None) /\
    mouse σ' = mouse σ.
Proof.
  intros Hk Hlt. eexists. split; [by apply MALI_CreateCursor_failure|].
  simpl. repeat split; try done.
  - destruct (created_addrs (heap σ)) as (_ & _ & _ & Hcd & _).
    destruct k as [|[|k]]; simpl.
    + apply NoDup_nil_2.
    + apply NoDup_singleton.
    + apply NoDup_cons. split; [|apply NoDup_singleton].
      rewrite list_elem_of_singleton. congruence.
  - destruct (created_addrs (heap σ)) as (Hc & Hd & _).
    destruct k as [|[|k]]; simpl; intros a;
      rewrite ?elem_of_cons, elem_of_nil; intuition congruence.
Qed.

Lemma MALI_CreateCursor_out_of_memory_witness :
  first_failure (oom_plan (set_oom_plan [false; false; true] empty_world))
    = Some 2%nat /\
  (2 < 3)%nat /\
  exists σ',
    MALI_CreateCursor surface_2x3 5 6
      (set_oom_plan [false; false; true] empty_world) = Some (NULL, σ') /\
    heap σ' = ∅ /\
    trace σ' = [] ++ EOutOfMemory :: (EFree <$> freed_on_failure 2 ∅) /\
    NoDup (freed_on_failure 2 (∅ : gmap positive block)) /\
    (forall a, a ∈ freed_on_failure 2 (∅ : gmap positive block) ->
               (∅ : gmap positive block) !! a = None) /\
    mouse σ' = None.
Proof.
  split; [reflexivity|]. split; [lia|].
  apply (MALI_CreateCursor_out_of_memory surface_2x3 5 6
           (set_oom_plan [false; false; true] empty_world) 2);
    [reflexivity | lia].
Defined.

(** C2. MALI_ShowCursor always returns.  Without a pointer record it sets
    the error "No mouse." and returns -1.  With one, a NULL cursor, a
    pointer record without focus and a focus window without display each
    make it return 0 and change nothing, so SDL_ShowCursor is not called;
    in the remaining case it calls SDL_ShowCursor(1) and returns what that
    returns.  So as long as SDL_ShowCursor(1) returns no negative value,
    the result is an error (negative) exactly when there is no pointer
    record. *)
Theorem MALI_ShowCursor_error_iff_no_mouse {host : Host} (cursor : ptr)
    (σ : world) :
  exists r σ',
    MALI_ShowCursor cursor σ = Some (r, σ') /\
    (mouse σ = None -> r = -1 /\ σ' = log (ESetError "No mouse.") σ) /\
    (forall m, mouse σ = Some m ->
       cursor = NULL \/ focus m = NULL \/
       host_GetDisplayForWindow (focus m) = NULL ->
       r = 0 /\ σ' = σ) /\
    (forall m, mouse σ = Some m ->
       cursor <> NULL -> focus m <> NULL ->
       host_GetDisplayForWindow (focus m) <> NULL ->
       r = (host_ShowCursor 1 m).1 /\
       σ' = set_mouse (Some (host_ShowCursor 1 m).2) (log (EShowCursor 1) σ)) /\
    ((forall m, mouse σ = Some m -> 0 <= (host_ShowCursor 1 m).1) ->
     (r < 0 <-> mouse σ = None)).
Proof.
  rewrite MALI_ShowCursor_run.
  destruct (mouse σ) as [m|] eqn:Hm.
  - destruct (focus m) as [|win] eqn:Hf, cursor as [|c],
      (host_GetDisplayForWindow (focus m)) as [|dpy] eqn:Hd;
      rewrite Hf in Hd; rewrite ?Hd; simpl.
    all: eexists _, _; split; [reflexivity|].
    all: repeat split; try discriminate; try lia.
    all: try match goal with
             | H : forall m, Some _ = Some m -> _ |- _ =>
                 specialize (H _ eq_refl); lia
             end.
    all: simplify_eq; rewrite ?Hf, ?Hd in *; intuition congruence.
  - eexists _, _. split; [reflexivity|]. repeat split; try done.
Qed.

Lemma MALI_ShowCursor_error_iff_no_mouse_witness :
  (forall m, mouse focused_world = Some m ->
             0 <= (@host_ShowCursor stub_host 1 m).1) /\
  exists r σ',
    @MALI_ShowCursor stub_host (Addr 1) focused_world = Some (r, σ') /\
    r = 0 /\
    σ' = mkWorld ∅ [] (Some mouse_at_10_20) [EShowCursor 1] /\
    (r < 0 <-> mouse focused_world = None).
Proof.
  assert (H : forall m, mouse focused_world = Some m ->
                        0 <= (@host_ShowCursor stub_host 1 m).1)
    by (intros m _; simpl; lia).
  split; [exact H|].
  destruct (@MALI_ShowCursor_error_iff_no_mouse stub_host (Addr 1)
              focused_world) as (r & σ' & Hrun & _ & _ & Hbind & Hiff).
  exists r, σ'. split; [exact Hrun|].
  destruct (Hbind mouse_at_10_20 eq_refl) as [Hr Hσ]; try discriminate.
  split; [exact Hr|]. split; [exact Hσ|]. exact (Hiff H).
Defined.

(** C3. Without a pointer record, without a current cursor or without a
    focus window, MALI_WarpMouseGlobal sets the error "No mouse or current
    cursor." and returns -1; nothing else happens: the pointer record, its
    position included, and the heap stay as they were, and the only call
    logged is that SDL_SetError. *)
Theorem MALI_WarpMouseGlobal_no_cursor_or_focus {host : Host} (x y : Z)
    (σ : world) :
  (mouse σ = None \/
   exists m, mouse σ = Some m /\ (cur_cursor m = NULL \/ focus m = NULL)) ->
  exists σ',
    MALI_WarpMouseGlobal x y σ = Some (-1, σ') /\
    trace σ' = trace σ ++ [ESetError "No mouse or current cursor."] /\
    mouse σ' = mouse σ /\ heap σ' = heap σ /\ oom_plan σ' = oom_plan σ.
Proof.
  intros Hpre. rewrite MALI_WarpMouseGlobal_run.
  destruct Hpre as [Hm | (m & Hm & [Hc | Hf])]; rewrite Hm;
    [|rewrite Hc | rewrite Hf]; simpl; rewrite ?andb_false_r;
    (eexists; split; [reflexivity|]); by simpl.
Qed.

Lemma MALI_WarpMouseGlobal_no_cursor_or_focus_witness :
  (mouse unfocused_world = None \/
   exists m, mouse unfocused_world = Some m /\
             (cur_cursor m = NULL \/ focus m = NULL)) /\
  exists σ',
    @MALI_WarpMouseGlobal stub_host 3 4 unfocused_world = Some (-1, σ') /\
    trace σ' = [] ++ [ESetError "No mouse or current cursor."] /\
    mouse σ' = Some (mkMouse NULL (Addr 1) 0 10 20) /\
    heap σ' = ∅ /\ oom_plan σ' = [].
Proof.
  assert (H : mouse unfocused_world = None \/
              exists m, mouse unfocused_world = Some m /\
                        (cur_cursor m = NULL \/ focus m = NULL)).
  { right. exists (mkMouse NULL (Addr 1) 0 10 20).
    split; [reflexivity|]. right. reflexivity. }
  split; [exact H|].
  exact (@MALI_WarpMouseGlobal_no_cursor_or_focus stub_host 3 4
           unfocused_world H).
Defined.

(** C4. With a pointer record that has a current cursor and a focus
    window, MALI_WarpMouseGlobal makes two calls, in this order:
    SDL_SendMouseMotion on the focus window with the mouse id, relative 0
    and (x, y), then SDL_WarpMouseInWindow on the same window with (x, y);
    the pointer record is what the host makes of these two calls in that
    order, and the hook returns 0. *)
Theorem MALI_WarpMouseGlobal_motion_then_warp {host : Host} (x y : Z)
    (σ : world) (m : SDL_Mouse) :
  mouse σ = Some m -> cur_cursor m <> NULL -> focus m <> NULL ->
  exists σ',
    MALI_WarpMouseGlobal x y σ = Some (0, σ') /\
    trace σ' =
      trace σ ++ [ESendMouseMotion (focus m) (mouseID m) 0 x y;
                  EWarpMouseInWindow (focus m) x y] /\
    mouse σ' =
      Some (host_WarpMouseInWindow (focus m) x y
              (host_SendMouseMotion (focus m) (mouseID m) 0 x y m)) /\
    heap σ' = heap σ /\ oom_plan σ' = oom_plan σ.
Proof.
  intros Hm Hc Hf. rewrite MALI_WarpMouseGlobal_run, Hm.
  destruct (cur_cursor m); [done|]. destruct (focus m); [done|]. simpl.
  eexists. split; [reflexivity|]. simpl. by rewrite <- app_assoc.
Qed.

Lemma MALI_WarpMouseGlobal_motion_then_warp_witness :
  mouse focused_world = Some mouse_at_10_20 /\
  cur_cursor mouse_at_10_20 <> NULL /\ focus mouse_at_10_20 <> NULL /\
  exists σ',
    @MALI_WarpMouseGlobal stub_host 3 4 focused_world = Some (0, σ') /\
    trace σ' =
      [] ++ [ESendMouseMotion (Addr 7) 0 0 3 4; EWarpMouseInWindow (Addr 7) 3 4] /\
    mouse σ' = Some (mkMouse (Addr 7) (Addr 1) 0 3 4) /\
    heap σ' = ∅ /\ oom_plan σ' = [].
Proof.
  assert (Hc : cur_cursor mouse_at_10_20 <> NULL) by (simpl; discriminate).
  assert (Hf : focus mouse_at_10_20 <> NULL) by (simpl; discriminate).
  split; [reflexivity|]. split; [exact Hc|]. split; [exact Hf|].
  exact (@MALI_WarpMouseGlobal_motion_then_warp stub_host 3 4 focused_world
           mouse_at_10_20 eq_refl Hc Hf).
Defined.

(** C5. MALI_MoveCursor returns and leaves the world as it is, for every
    cursor and every pointer record: it logs no call at all, so no
    SDL_SendMouseMotion. *)
Theorem MALI_MoveCursor_emits_nothing (cursor : ptr) (σ : world) :
  MALI_MoveCursor cursor σ = Some (tt, σ).
Proof. apply MALI_MoveCursor_run. Qed.


Lemma one_cursor_world_reachable : @reachable stub_host one_cursor_world.
Proof.
  apply (reach_step empty_world); [by apply reach_init|].
  apply (step_call (CreateCursor surface_2x3 5 6)); [exact I|].
  vm_compute; reflexivity.
Defined.




(** C8. On a cursor struct whose driverdata is a live cursor data struct,
    with a live pixel buffer or with none, MALI_FreeCursor runs without a
    fault whatever the pointer record and the calls made so far; it frees
    the pixel buffer if there is one, then the cursor data, then the cursor
    struct, each once, and reports no error. *)
Theorem MALI_FreeCursor_releases (σ : world) (c d : positive)
    (cur : SDL_Cursor) (cd : MALI_CursorData) :
  heap σ !! c = Some (BCursor cur) ->
  driverdata cur = Addr d ->
  heap σ !! d = Some (BCurData cd) ->
  (forall b, buffer cd = Addr b -> exists n, heap σ !! b = Some (BBuffer n)) ->
  exists σ',
    MALI_FreeCursor (Addr c) σ = Some (tt, σ') /\
    trace σ' =
      trace σ ++
      match buffer cd with Addr b => [EFree b] | NULL => [] end ++
      [EFree d; EFree c] /\
    heap σ' =
      delete c (delete d
        (match buffer cd with Addr b => delete b (heap σ) | NULL => heap σ end)) /\
    heap σ' !! c = None /\ heap σ' !! d = None /\
    (forall b, buffer cd = Addr b -> heap σ' !! b = None) /\
    mouse σ' = mouse σ /\ oom_plan σ' = oom_plan σ.
Proof.
  intros Hc Hcur Hd Hb. eexists. split; [by eapply MALI_FreeCursor_live|].
  simpl. unfold freed_heap. repeat split; try done.
  - apply lookup_delete_eq.
  - rewrite lookup_delete_ne by congruence. apply lookup_delete_eq.
  - intros b Hbuf. destruct (Hb b Hbuf) as [n Hn]. rewrite Hbuf.
    rewrite !lookup_delete_ne by congruence. apply lookup_delete_eq.
Qed.

Lemma MALI_FreeCursor_releases_witness :
  heap bufferless_world !! 1%positive = Some (BCursor (mkCursor NULL (Addr 2))) /\
  driverdata (mkCursor NULL (Addr 2)) = Addr 2 /\
  heap bufferless_world !! 2%positive = Some (BCurData zero_curdata) /\
  (forall b, buffer zero_curdata = Addr b ->
             exists n, heap bufferless_world !! b = Some (BBuffer n)) /\
  exists σ',
    MALI_FreeCursor (Addr 1) bufferless_world = Some (tt, σ') /\
    trace σ' = [] ++ [] ++ [EFree 2; EFree 1] /\
    heap σ' = delete 1%positive (delete 2%positive (heap bufferless_world)) /\
    heap σ' !! 1%positive = None /\ heap σ' !! 2%positive = None /\
    (forall b, buffer zero_curdata = Addr b -> heap σ' !! b = None) /\
    mouse σ' = None /\ oom_plan σ' = [].
Proof.
  assert (H1 : heap bufferless_world !! 1%positive
               = Some (BCursor (mkCursor NULL (Addr 2)))) by reflexivity.
  assert (H2 : heap bufferless_world !! 2%positive
               = Some (BCurData zero_curdata)) by reflexivity.
  assert (H3 : forall b, buffer zero_curdata = Addr b ->
               exists n, heap bufferless_world !! b = Some (BBuffer n))
    by (intros b Hb; discriminate Hb).
  split; [exact H1|]. split; [reflexivity|]. split; [exact H2|].
  split; [exact H3|].
  exact (MALI_FreeCursor_releases bufferless_world 1 2
           (mkCursor NULL (Addr 2)) zero_curdata H1 eq_refl H2 H3).
Defined.

(** C9. MALI_WarpMouse ends in the world in which MALI_WarpMouseGlobal
    ends for the same coordinates, whatever the window. *)
Theorem MALI_WarpMouse_is_WarpMouseGlobal {host : Host} (window : ptr)
    (x y : Z) (σ : world) :
  snd <$> MALI_WarpMouse window x y σ = snd <$> MALI_WarpMouseGlobal x y σ /\
  forall window', MALI_WarpMouse window' x y σ = MALI_WarpMouse window x y σ.
Proof.
  split; [|reflexivity].
  unfold MALI_WarpMouse, bind.
  by destruct (MALI_WarpMouseGlobal x y σ) as [[r σ']|].
Qed.

(** C10. A cursor that MALI_CreateCursor returns is a live cursor struct
    whose driverdata is a live cursor data struct; that struct has a live
    pixel buffer, the hot spot of the call and the width and height of the
    surface.  On such a cursor MALI_FreeCursor runs without a fault. *)
Theorem MALI_CreateCursor_handle (surface : SDL_Surface) (hx hy : Z)
    (σ σ' : world) (c : positive) :
  MALI_CreateCursor surface hx hy σ = Some (Addr c, σ') ->
  exists d b cd,
    heap σ' !! c = Some (BCursor (mkCursor NULL (Addr d))) /\
    heap σ' !! d = Some (BCurData cd) /\
    buffer cd = Addr b /\
    heap σ' !! b = Some (BBuffer (buffer_size cd)) /\
    hot_x cd = hx /\ hot_y cd = hy /\
    w cd = surface_w surface /\ h cd = surface_h surface /\
    exists σ'', MALI_FreeCursor (Addr c) σ' = Some (tt, σ'').
Proof.
  intros [-> ->]%MALI_CreateCursor_inv.
  destruct (created_heap_new surface hx hy (heap σ)) as (Nc & Nd & Nb).
  exists (curdata_addr (heap σ)), (buffer_addr (heap σ)),
    (created_curdata surface hx hy (buffer_addr (heap σ))).
  simpl. repeat split; try done.
  eexists. eapply MALI_FreeCursor_live; simpl; try done.
  intros b [= <-]. eauto.
Qed.

Lemma MALI_CreateCursor_handle_witness :
  exists σ',
    MALI_CreateCursor surface_2x3 5 6 empty_world = Some (Addr 1, σ') /\
    exists d b cd,
      heap σ' !! 1%positive = Some (BCursor (mkCursor NULL (Addr d))) /\
      heap σ' !! d = Some (BCurData cd) /\
      buffer cd = Addr b /\
      heap σ' !! b = Some (BBuffer (buffer_size cd)) /\
      hot_x cd = 5 /\ hot_y cd = 6 /\ w cd = 2 /\ h cd = 3 /\
      exists σ'', MALI_FreeCursor (Addr 1) σ' = Some (tt, σ'').
Proof.
  eexists. split; [vm_compute; reflexivity|].
  apply (MALI_CreateCursor_handle surface_2x3 5 6 empty_world).
  vm_compute; reflexivity.
Defined.

(** * Further properties of the hooks *)

(** ** Vocabulary *)

(** No block without owner: every cursor data struct is the driverdata of
    a live cursor struct, every pixel buffer the buffer of a live cursor
    data struct. *)
Record heap_owned (hp : gmap positive block) : Prop := mk_heap_owned {
  owned_curdata : forall d cd,
    hp !! d = Some (BCurData cd) ->
    exists c cur, hp !! c = Some (BCursor cur) /\ driverdata cur = Addr d;
  owned_buffer : forall b n,
    hp !! b = Some (BBuffer n) ->
    exists d cd, hp !! d = Some (BCurData cd) /\ buffer cd = Addr b
}.

(** Every cursor data struct records the dimensions of a surface that
    fits, and as [buffer_size] their exact product with 4. *)
Definition sizes_ok (hp : gmap positive block) : Prop :=
  forall d cd,
    hp !! d = Some (BCurData cd) ->
    0 <= w cd /\ 0 <= h cd /\ w cd * h cd * 4 <= INT_MAX /\
    buffer_size cd = w cd * h cd * 4.

(** The hooks that only look at the pointer record. *)
Definition pointer_call (c : call) : bool :=
  match c with
  | ShowCursor _ | MoveCursor _ | WarpMouse _ _ _ | WarpMouseGlobal _ _ => true
  | CreateCursor _ _ _ | FreeCursor _ => false
  end.

(** How many requests MALI_CreateCursor makes to the allocator under a
    plan: it stops at the first one that fails. *)
Definition requests_made (plan : list bool) : nat :=
  match first_failure plan with
  | Some k => Nat.min (S k) 3
  | None => 3%nat
  end.

(** The world after a second cursor was made, and the world after the
    first one was freed again. *)
Definition two_cursor_world : world :=
  mkWorld (created_heap surface_2x3 1 1 (created_heap surface_2x3 5 6 ∅)) [] None
          [EPremultiplyAlpha 2 3 SDL_PIXELFORMAT_ARGB8888 (Addr 99) 8
             SDL_PIXELFORMAT_ARGB8888 (Addr 3) 8;
           EPremultiplyAlpha 2 3 SDL_PIXELFORMAT_ARGB8888 (Addr 99) 8
             SDL_PIXELFORMAT_ARGB8888 (Addr 6) 8].

Definition freed_world : world :=
  mkWorld ∅ [] None
          [EPremultiplyAlpha 2 3 SDL_PIXELFORMAT_ARGB8888 (Addr 99) 8
             SDL_PIXELFORMAT_ARGB8888 (Addr 3) 8;
           EFree 3; EFree 2; EFree 1].

(** A cursor struct as SDL_calloc leaves it, its driverdata still NULL. *)
Definition bare_cursor_world : world :=
  mkWorld (<[1%positive := BCursor zero_cursor]> ∅) [] None [].

(** ** Lemmas *)

Lemma two_cursor_world_reachable : @reachable stub_host two_cursor_world.
Proof.
  apply (reach_step one_cursor_world); [exact one_cursor_world_reachable|].
  apply (step_call (CreateCursor surface_2x3 1 1)); [exact I|].
  vm_compute; reflexivity.
Defined.

Lemma freed_world_reachable : @reachable stub_host freed_world.
Proof.
  apply (reach_step one_cursor_world); [exact one_cursor_world_reachable|].
  apply (step_call (FreeCursor (Addr 1))).
  - exists (mkCursor NULL (Addr 2)). vm_compute; reflexivity.
  - vm_compute; reflexivity.
Defined.

Lemma heap_owned_empty : heap_owned ∅.
Proof. split; intros *; rewrite lookup_empty; discriminate. Qed.

Lemma heap_owned_created (surface : SDL_Surface) (hot_x hot_y : Z)
    (hp : gmap positive block) :
  heap_owned hp -> heap_owned (created_heap surface hot_x hot_y hp).
Proof.
  intros [H1 H2].
  destruct (created_heap_new surface hot_x hot_y hp) as (Nc & Nd & Nb).
  pose proof (created_heap_old surface hot_x hot_y hp) as Hold.
  split.
  - intros d cd [[-> ?]|[[-> [= ->]]|[[-> ?]|Hin]]]%created_heap_inv;
      try discriminate.
    + eauto.
    + destruct (H1 _ _ Hin) as (c & cur & ? & ?). eauto.
  - intros b n [[-> ?]|[[-> ?]|[[-> [= ->]]|Hin]]]%created_heap_inv;
      try discriminate.
    + eauto.
    + destruct (H2 _ _ Hin) as (d & cd & ? & ?). eauto.
Qed.

Lemma heap_owned_freed (c d b : positive) (cur : SDL_Cursor)
    (cd : MALI_CursorData) (n : Z) (hp : gmap positive block) :
  heap_owned hp ->
  hp !! c = Some (BCursor cur) -> driverdata cur = Addr d ->
  hp !! d = Some (BCurData cd) -> buffer cd = Addr b ->
  hp !! b = Some (BBuffer n) ->
  heap_owned (freed_heap c d (Addr b) hp).
Proof.
  intros [H1 H2] Hc Hcur Hd Hbuf Hb.
  split.
  - intros d' cd' (? & ? & ? & Hin)%freed_heap_lookup.
    destruct (H1 _ _ Hin) as (c' & cur' & Hc' & Hcur').
    exists c', cur'. split; [|done]. apply freed_heap_lookup.
    repeat split; [| | |done]; intros ->; congruence.
  - intros b' n' (? & ? & ? & Hin)%freed_heap_lookup.
    destruct (H2 _ _ Hin) as (d' & cd' & Hd' & Hbuf').
    exists d', cd'. split; [|done]. apply freed_heap_lookup.
    repeat split; [| | |done]; intros ->; congruence.
Qed.

Section Protocol.

Context {host : Host}.

Lemma step_heap_owned (σ σ' : world) :
  heap_ok (heap σ) -> heap_owned (heap σ) -> step σ σ' -> heap_owned (heap σ').
Proof.
  intros Hok Hown Hstep.
  destruct Hstep as [c σ1 σ2 Hallowed Hrun | plan m σ1]; [|exact Hown].
  destruct c as [surface hx hy|cursor|cursor|[|a]|window x y|x y];
    simpl in Hrun, Hallowed.
  - unfold bind in Hrun.
    destruct (MALI_CreateCursor surface hx hy σ1) as [[[|c] σ3]|] eqn:Hc;
      [| |discriminate]; injection Hrun as <-.
    + by apply MALI_CreateCursor_NULL in Hc as [-> _].
    + apply MALI_CreateCursor_inv in Hc as [_ ->]. by apply heap_owned_created.
  - unfold bind in Hrun.
    destruct (MALI_ShowCursor cursor σ1) as [[r σ3]|] eqn:Hc; [|discriminate].
    injection Hrun as <-. by rewrite (MALI_ShowCursor_heap _ _ _ _ Hc).
  - rewrite MALI_MoveCursor_run in Hrun. by injection Hrun as <-.
  - by injection Hrun as <-.
  - destruct Hallowed as [cur Ha].
    destruct (ok_cursor _ Hok _ _ Ha) as (d & cd & Hcur & Hd).
    destruct (ok_curdata _ Hok _ _ Hd) as (b & Hbuf & Hb & Hsz).
    rewrite (MALI_FreeCursor_live σ1 a d cur cd) in Hrun; try done.
    + injection Hrun as <-. simpl. rewrite Hbuf.
      by apply (heap_owned_freed a d b cur cd (buffer_size cd)).
    + intros b' Hb'. exists (buffer_size cd). congruence.
  - unfold MALI_WarpMouse, bind in Hrun.
    destruct (MALI_WarpMouseGlobal x y σ1) as [[r σ3]|] eqn:Hc; [|discriminate].
    injection Hrun as <-. by rewrite (MALI_WarpMouseGlobal_heap _ _ _ _ _ Hc).
  - unfold bind in Hrun.
    destruct (MALI_WarpMouseGlobal x y σ1) as [[r σ3]|] eqn:Hc; [|discriminate].
    injection Hrun as <-. by rewrite (MALI_WarpMouseGlobal_heap _ _ _ _ _ Hc).
Qed.

Lemma reachable_heap_owned (σ : world) : reachable σ -> heap_owned (heap σ).
Proof.
  induction 1 as [σ Hempty | σ σ' Hreach IH Hstep].
  - rewrite Hempty. apply heap_owned_empty.
  - apply (step_heap_owned σ σ'); [by apply reachable_heap_ok|done|done].
Qed.

Lemma surface_fits_exact (surface : SDL_Surface) :
  surface_fits surface ->
  int_mul (int_mul (surface_w surface) (surface_h surface)) 4
    = surface_w surface * surface_h surface * 4.
Proof.
  intros (Hw & Hh & _ & Hall). apply int_mul_4_exact.
  unfold in_int, INT_MIN, INT_MAX in *. nia.
Qed.

Lemma sizes_ok_created (surface : SDL_Surface) (hx hy : Z)
    (hp : gmap positive block) :
  surface_fits surface -> sizes_ok hp ->
  sizes_ok (created_heap surface hx hy hp).
Proof.
  intros Hfits Hsz d cd
    [[_ [=]] | [[_ [= ->]] | [[_ [=]] | Hold]]]%created_heap_inv;
    [|exact (Hsz _ _ Hold)].
  simpl. rewrite (surface_fits_exact _ Hfits).
  destruct Hfits as (Hw & Hh & _ & Hall). done.
Qed.

Lemma step_sizes_ok (σ σ' : world) :
  heap_ok (heap σ) -> sizes_ok (heap σ) -> step σ σ' -> sizes_ok (heap σ').
Proof.
  intros Hok Hsz Hstep.
  destruct Hstep as [c σ1 σ2 Hallowed Hrun | plan m σ1]; [|exact Hsz].
  destruct c as [surface hx hy|cursor|cursor|[|a]|window x y|x y];
    simpl in Hrun, Hallowed.
  - unfold bind in Hrun.
    destruct (MALI_CreateCursor surface hx hy σ1) as [[[|c] σ3]|] eqn:Hc;
      [| |discriminate]; injection Hrun as <-.
    + by apply MALI_CreateCursor_NULL in Hc as [-> _].
    + destruct (MALI_CreateCursor_inv_fits _ _ _ _ _ _ Hc) as [Hfits _].
      apply MALI_CreateCursor_inv in Hc as [_ ->]. by apply sizes_ok_created.
  - unfold bind in Hrun.
    destruct (MALI_ShowCursor cursor σ1) as [[r σ3]|] eqn:Hc; [|discriminate].
    injection Hrun as <-. by rewrite (MALI_ShowCursor_heap _ _ _ _ Hc).
  - rewrite MALI_MoveCursor_run in Hrun. by injection Hrun as <-.
  - by injection Hrun as <-.
  - destruct Hallowed as [cur Ha].
    destruct (ok_cursor _ Hok _ _ Ha) as (d & cd & Hcur & Hd).
    destruct (ok_curdata _ Hok _ _ Hd) as (b & Hbuf & Hb & _).
    rewrite (MALI_FreeCursor_live σ1 a d cur cd) in Hrun; try done.
    + injection Hrun as <-. simpl. rewrite Hbuf.
      intros d' cd' (_ & _ & _ & Hd')%freed_heap_lookup. exact (Hsz _ _ Hd').
    + intros b' Hb'. exists (buffer_size cd). congruence.
  - unfold MALI_WarpMouse, bind in Hrun.
    destruct (MALI_WarpMouseGlobal x y σ1) as [[r σ3]|] eqn:Hc; [|discriminate].
    injection Hrun as <-. by rewrite (MALI_WarpMouseGlobal_heap _ _ _ _ _ Hc).
  - unfold bind in Hrun.
    destruct (MALI_WarpMouseGlobal x y σ1) as [[r σ3]|] eqn:Hc; [|discriminate].
    injection Hrun as <-. by rewrite (MALI_WarpMouseGlobal_heap _ _ _ _ _ Hc).
Qed.

Lemma reachable_sizes_ok (σ : world) : reachable σ -> sizes_ok (heap σ).
Proof.
  induction 1 as [σ Hempty | σ σ' Hreach IH Hstep].
  - rewrite Hempty. intros d cd Hd. by rewrite lookup_empty in Hd.
  - apply (step_sizes_ok σ σ'); [by apply reachable_heap_ok|done|done].
Qed.

End Protocol.

(** A pointer that is not a live cursor struct makes MALI_FreeCursor fault. *)
Lemma MALI_FreeCursor_not_cursor (σ : world) (c : positive) :
  (forall cur, heap σ !! c <> Some (BCursor cur)) ->
  MALI_FreeCursor (Addr c) σ = None.
Proof.
  intros Hc. unfold MALI_FreeCursor, bind, load_cursor; simpl.
  destruct (heap σ !! c) as [[cur| |]|] eqn:Hl; try reflexivity.
  by destruct (Hc cur).
Qed.

Lemma requests_made_success (plan : list bool) :
  allocs_succeed 3 plan = true ->
  requests_made plan = 3%nat /\
  forall k, first_failure plan = Some k -> (3 <= k)%nat.
Proof.
  unfold requests_made.
  destruct plan as [|[] [|[] [|[] plan]]]; simpl; try discriminate;
    try (split; [reflexivity|intros k; discriminate]).
  all: intros _; destruct (first_failure plan) as [j|]; simpl;
    (split; [reflexivity|intros k [= <-]; lia]) ||
    (split; [reflexivity|intros k; discriminate]).
Qed.

Lemma requests_made_failure (plan : list bool) (k : nat) :
  first_failure plan = Some k -> (k < 3)%nat -> requests_made plan = S k.
Proof. unfold requests_made. intros -> Hk. lia. Qed.

(** ** MALI_CreateCursor beyond its result *)

(** X1. Given a live surface whose width and height are not negative and
    for which both the width times 4 and the width times the height times
    4 fit an [int], MALI_CreateCursor never faults, whatever the hot spot
    and the pixel format: it returns NULL exactly when one of its three
    requests to the allocator fails.  It stops asking at the first failure
    (three requests on success, k + 1 when request k fails) and leaves the
    pointer record alone. *)
Theorem MALI_CreateCursor_returns (surface : SDL_Surface) (hx hy : Z)
    (σ : world) :
  surface_fits surface ->
  exists r σ',
    MALI_CreateCursor surface hx hy σ = Some (r, σ') /\
    (r = NULL <->
     exists k, first_failure (oom_plan σ) = Some k /\ (k < 3)%nat) /\
    oom_plan σ' = drop (requests_made (oom_plan σ)) (oom_plan σ) /\
    mouse σ' = mouse σ.
Proof.
  intros Hfits.
  destruct (allocs_succeed_or_fail (oom_plan σ)) as [Hs|(k & Hk & Hlt)].
  - destruct (requests_made_success _ Hs) as [Hn Hge].
    rewrite MALI_CreateCursor_success by done. eexists _, _.
    split; [reflexivity|]. simpl. rewrite Hn. repeat split; try done.
    intros (k & Hk & Hlt). apply Hge in Hk. lia.
  - rewrite (MALI_CreateCursor_failure _ _ _ _ k) by done. eexists _, _.
    split; [reflexivity|]. simpl.
    rewrite (requests_made_failure _ k) by done. repeat split; eauto.
Qed.

Lemma MALI_CreateCursor_returns_witness :
  surface_fits surface_2x3 /\
  exists r σ',
    MALI_CreateCursor surface_2x3 5 6
      (set_oom_plan [false; true] empty_world) = Some (r, σ') /\
    (r = NULL <->
     exists k, first_failure [false; true] = Some k /\ (k < 3)%nat) /\
    oom_plan σ' = drop (requests_made [false; true]) [false; true] /\
    mouse σ' = None.
Proof.
  assert (Hf : surface_fits surface_2x3)
    by (unfold surface_fits, INT_MAX; simpl; lia).
  split; [exact Hf|].
  exact (MALI_CreateCursor_returns surface_2x3 5 6
           (set_oom_plan [false; true] empty_world) Hf).
Defined.

(** X2. MALI_CreateCursor never changes or frees a block that was live
    before the call.  When it fails the heap is the one before; when it
    succeeds the heap has grown by exactly three blocks, at three different
    addresses that were free before the call. *)
Theorem MALI_CreateCursor_frame (surface : SDL_Surface) (hx hy : Z)
    (σ σ' : world) (r : ptr) :
  MALI_CreateCursor surface hx hy σ = Some (r, σ') ->
  (forall a x, heap σ !! a = Some x -> heap σ' !! a = Some x) /\
  (r = NULL -> heap σ' = heap σ) /\
  (forall c, r = Addr c ->
     exists d b,
       heap σ !! c = None /\ heap σ !! d = None /\ heap σ !! b = None /\
       c <> d /\ c <> b /\ d <> b /\
       dom (heap σ') = {[c]} ∪ ({[d]} ∪ ({[b]} ∪ dom (heap σ)))).
Proof.
  intros Hrun. destruct r as [|c'].
  - apply MALI_CreateCursor_NULL in Hrun as [-> _]. repeat split; done.
  - apply MALI_CreateCursor_inv in Hrun as [-> ->]. simpl.
    destruct (created_addrs (heap σ)) as (Hc & Hd & Hb & Hcd & Hcb & Hdb).
    split; [apply created_heap_old|]. split; [discriminate|].
    intros c [= <-]. exists (curdata_addr (heap σ)), (buffer_addr (heap σ)).
    repeat split; try done. unfold created_heap. by rewrite !dom_insert_L.
Qed.

Lemma MALI_CreateCursor_frame_witness :
  MALI_CreateCursor surface_2x3 1 1 one_cursor_world
    = Some (Addr 4, two_cursor_world) /\
  (forall a x, heap one_cursor_world !! a = Some x ->
               heap two_cursor_world !! a = Some x) /\
  (Addr 4 = NULL -> heap two_cursor_world = heap one_cursor_world) /\
  (forall c, Addr 4 = Addr c ->
     exists d b,
       heap one_cursor_world !! c = None /\
       heap one_cursor_world !! d = None /\
       heap one_cursor_world !! b = None /\
       c <> d /\ c <> b /\ d <> b /\
       dom (heap two_cursor_world) =
         {[c]} ∪ ({[d]} ∪ ({[b]} ∪ dom (heap one_cursor_world)))).
Proof.
  assert (Hrun : MALI_CreateCursor surface_2x3 1 1 one_cursor_world
                 = Some (Addr 4, two_cursor_world)) by (vm_compute; reflexivity).
  split; [exact Hrun|].
  exact (MALI_CreateCursor_frame surface_2x3 1 1 one_cursor_world
           two_cursor_world (Addr 4) Hrun).
Defined.

(** X3. MALI_FreeCursor undoes MALI_CreateCursor: on the cursor just made
    it runs without fault and gives back the heap in which the cursor was
    made, whatever else that heap holds; between them the two hooks log the
    conversion and the three frees, buffer first, and nothing else. *)
Theorem MALI_CreateCursor_FreeCursor_roundtrip (surface : SDL_Surface)
    (hx hy : Z) (σ σ' : world) (c : positive) :
  MALI_CreateCursor surface hx hy σ = Some (Addr c, σ') ->
  exists d b pitch σ'',
    MALI_FreeCursor (Addr c) σ' = Some (tt, σ'') /\
    heap σ'' = heap σ /\
    mouse σ'' = mouse σ /\
    trace σ'' =
      trace σ ++
      [EPremultiplyAlpha (surface_w surface) (surface_h surface)
         (surface_format surface) (surface_pixels surface)
         (surface_pitch surface) SDL_PIXELFORMAT_ARGB8888 (Addr b) pitch;
       EFree b; EFree d; EFree c].
Proof.
  intros [-> ->]%MALI_CreateCursor_inv.
  destruct (created_heap_new surface hx hy (heap σ)) as (Nc & Nd & Nb).
  eexists _, _, _, _. split.
  - eapply MALI_FreeCursor_live; simpl; try done.
    intros b [= <-]. eauto.
  - simpl. rewrite freed_created_heap, <- app_assoc. by repeat split.
Qed.

Lemma MALI_CreateCursor_FreeCursor_roundtrip_witness :
  MALI_CreateCursor surface_2x3 5 6 empty_world
    = Some (Addr 1, one_cursor_world) /\
  exists d b pitch σ'',
    MALI_FreeCursor (Addr 1) one_cursor_world = Some (tt, σ'') /\
    heap σ'' = ∅ /\
    mouse σ'' = None /\
    trace σ'' =
      [] ++
      [EPremultiplyAlpha 2 3 SDL_PIXELFORMAT_ARGB8888 (Addr 99) 8
         SDL_PIXELFORMAT_ARGB8888 (Addr b) pitch;
       EFree b; EFree d; EFree 1].
Proof.
  assert (Hrun : MALI_CreateCursor surface_2x3 5 6 empty_world
                 = Some (Addr 1, one_cursor_world)) by (vm_compute; reflexivity).
  split; [exact Hrun|].
  exact (MALI_CreateCursor_FreeCursor_roundtrip surface_2x3 5 6 empty_world
           one_cursor_world 1 Hrun).
Defined.

(** ** MALI_FreeCursor outside its contract *)

(** X4. MALI_FreeCursor reads the buffer field through driverdata before
    it tests driverdata: on a cursor struct whose driverdata is NULL it
    faults, and the test that follows in the source is never reached with
    NULL. *)
Theorem MALI_FreeCursor_NULL_driverdata_faults (σ : world) (c : positive)
    (cur : SDL_Cursor) :
  heap σ !! c = Some (BCursor cur) -> driverdata cur = NULL ->
  MALI_FreeCursor (Addr c) σ = None.
Proof.
  intros Hc Hcur. unfold MALI_FreeCursor, bind, load_cursor; simpl.
  rewrite Hc. simpl. by rewrite Hcur.
Qed.

Lemma MALI_FreeCursor_NULL_driverdata_faults_witness :
  heap bare_cursor_world !! 1%positive = Some (BCursor zero_cursor) /\
  driverdata zero_cursor = NULL /\
  MALI_FreeCursor (Addr 1) bare_cursor_world = None.
Proof.
  assert (H1 : heap bare_cursor_world !! 1%positive = Some (BCursor zero_cursor))
    by reflexivity.
  split; [exact H1|]. split; [reflexivity|].
  exact (MALI_FreeCursor_NULL_driverdata_faults bare_cursor_world 1
           zero_cursor H1 eq_refl).
Defined.

(** X5. MALI_FreeCursor keeps no record of what it freed: a second call on
    the cursor it has just freed reads the dead cursor struct and faults. *)
Theorem MALI_FreeCursor_twice_faults (σ : world) (c d : positive)
    (cur : SDL_Cursor) (cd : MALI_CursorData) :
  heap σ !! c = Some (BCursor cur) ->
  driverdata cur = Addr d ->
  heap σ !! d = Some (BCurData cd) ->
  (forall b, buffer cd = Addr b -> exists n, heap σ !! b = Some (BBuffer n)) ->
  exists σ',
    MALI_FreeCursor (Addr c) σ = Some (tt, σ') /\
    MALI_FreeCursor (Addr c) σ' = None.
Proof.
  intros Hc Hcur Hd Hb. eexists. split; [by eapply MALI_FreeCursor_live|].
  apply MALI_FreeCursor_not_cursor. intros cur'. simpl. unfold freed_heap.
  by rewrite lookup_delete_eq.
Qed.

Lemma MALI_FreeCursor_twice_faults_witness :
  heap one_cursor_world !! 1%positive = Some (BCursor (mkCursor NULL (Addr 2))) /\
  driverdata (mkCursor NULL (Addr 2)) = Addr 2 /\
  heap one_cursor_world !! 2%positive =
    Some (BCurData (created_curdata surface_2x3 5 6 3)) /\
  (forall b, buffer (created_curdata surface_2x3 5 6 3) = Addr b ->
             exists n, heap one_cursor_world !! b = Some (BBuffer n)) /\
  exists σ',
    MALI_FreeCursor (Addr 1) one_cursor_world = Some (tt, σ') /\
    MALI_FreeCursor (Addr 1) σ' = None.
Proof.
  assert (H1 : heap one_cursor_world !! 1%positive
               = Some (BCursor (mkCursor NULL (Addr 2))))
    by (vm_compute; reflexivity).
  assert (H2 : heap one_cursor_world !! 2%positive
               = Some (BCurData (created_curdata surface_2x3 5 6 3)))
    by (vm_compute; reflexivity).
  assert (H3 : forall b, buffer (created_curdata surface_2x3 5 6 3) = Addr b ->
               exists n, heap one_cursor_world !! b = Some (BBuffer n)).
  { intros b [= <-]. exists 24. vm_compute; reflexivity. }
  split; [exact H1|]. split; [reflexivity|]. split; [exact H2|].
  split; [exact H3|].
  exact (MALI_FreeCursor_twice_faults one_cursor_world 1 2
           (mkCursor NULL (Addr 2)) (created_curdata surface_2x3 5 6 3)
           H1 eq_refl H2 H3).
Defined.

(** ** The hooks on the pointer record *)

(** X6. MALI_ShowCursor looks at its cursor only to see whether it is
    NULL: any two cursors that are not NULL, live or dead, ours or not,
    give the same result and the same world. *)
Theorem MALI_ShowCursor_any_cursor {host : Host} (c1 c2 : positive)
    (σ : world) :
  MALI_ShowCursor (Addr c1) σ = MALI_ShowCursor (Addr c2) σ.
Proof. by rewrite !MALI_ShowCursor_run. Qed.

(** X7. MALI_ShowCursor makes at most one call that is logged: none, or
    SDL_SetError("No mouse."), or SDL_ShowCursor(1).  The branch of the
    source that calls SDL_ShowCursor(0) is dead, so hiding a cursor never
    reaches SDL_ShowCursor; and SDL_ShowCursor(1) is only called for a
    cursor that is not NULL. *)
Theorem MALI_ShowCursor_calls {host : Host} (cursor : ptr) (σ : world) :
  exists r σ' new,
    MALI_ShowCursor cursor σ = Some (r, σ') /\
    trace σ' = trace σ ++ new /\
    (new = [] \/ new = [ESetError "No mouse."] \/
     (new = [EShowCursor 1] /\ cursor <> NULL)).
Proof.
  rewrite MALI_ShowCursor_run.
  destruct (mouse σ) as [m|].
  - destruct (is_null (focus m) || is_null cursor
              || is_null (host_GetDisplayForWindow (focus m))) eqn:Hb.
    + exists 0, σ, []. rewrite app_nil_r. auto.
    + eexists _, _, [EShowCursor 1]. split; [reflexivity|].
      split; [reflexivity|]. right. right. split; [reflexivity|].
      intros ->. simpl in Hb. by rewrite orb_true_r in Hb.
  - eexists _, _, [ESetError "No mouse."]. auto.
Qed.

(** X8. MALI_ShowCursor, MALI_MoveCursor, MALI_WarpMouse and
    MALI_WarpMouseGlobal never fault, in any world and for any argument,
    dangling cursors included, and they neither allocate nor free: heap and
    allocator are as before. *)
Theorem pointer_calls_never_fault {host : Host} (c : call) (σ : world) :
  pointer_call c = true ->
  exists σ',
    run_call c σ = Some (tt, σ') /\
    heap σ' = heap σ /\ oom_plan σ' = oom_plan σ.
Proof.
  destruct c as [surface hx hy|cursor|cursor|cursor|window x y|x y];
    try discriminate; intros _; simpl.
  - unfold bind. rewrite MALI_ShowCursor_run.
    destruct (mouse σ) as [m|]; [destruct (_ || _)|]; by eexists.
  - rewrite MALI_MoveCursor_run. by eexists.
  - unfold MALI_WarpMouse, bind. rewrite MALI_WarpMouseGlobal_run.
    destruct (mouse σ) as [m|]; [destruct (_ && _)|]; by eexists.
  - unfold bind. rewrite MALI_WarpMouseGlobal_run.
    destruct (mouse σ) as [m|]; [destruct (_ && _)|]; by eexists.
Qed.

Lemma pointer_calls_never_fault_witness :
  pointer_call (WarpMouse NULL 3 4) = true /\
  exists σ',
    @run_call stub_host (WarpMouse NULL 3 4) focused_world = Some (tt, σ') /\
    heap σ' = ∅ /\ oom_plan σ' = [].
Proof.
  split; [reflexivity|].
  exact (@pointer_calls_never_fault stub_host (WarpMouse NULL 3 4)
           focused_world eq_refl).
Defined.

(** ** The hooks under the host's contract *)

(** X9. As long as the host hands MALI_FreeCursor only NULL or cursors
    that are live, and MALI_CreateCursor only live surfaces whose width
    and height are not negative and for which the width times 4 and the
    width times the height times 4 fit an [int], no call of any of the six
    hooks faults, whatever the calls before it were, whatever the allocator
    did and however the pointer record changed in between; and the world
    it leaves is again one in which that holds. *)
Theorem hooks_never_fault {host : Host} (σ : world) (c : call) :
  reachable σ -> allowed σ c -> call_fits c ->
  exists σ', run_call c σ = Some (tt, σ') /\ reachable σ'.
Proof.
  intros Hreach Hallowed Hfits.
  destruct (reachable_progress σ c Hreach Hallowed Hfits) as [σ' Hrun].
  exists σ'. split; [done|]. apply (reach_step σ); [done|].
  by apply (step_call c).
Qed.

Lemma hooks_never_fault_witness :
  @reachable stub_host one_cursor_world /\
  allowed one_cursor_world (CreateCursor surface_2x3 1 1) /\
  call_fits (CreateCursor surface_2x3 1 1) /\
  exists σ',
    @run_call stub_host (CreateCursor surface_2x3 1 1) one_cursor_world
      = Some (tt, σ') /\
    @reachable stub_host σ'.
Proof.
  assert (Hf : call_fits (CreateCursor surface_2x3 1 1))
    by (unfold call_fits, surface_fits, INT_MAX; simpl; lia).
  split; [exact one_cursor_world_reachable|]. split; [exact I|].
  split; [exact Hf|].
  exact (@hooks_never_fault stub_host one_cursor_world
           (CreateCursor surface_2x3 1 1) one_cursor_world_reachable I Hf).
Defined.

(** X10. Two different live cursors never share anything: each has a
    live cursor data struct and a live pixel buffer of its own. *)
Theorem cursors_never_share {host : Host} (σ : world) (c1 c2 : positive)
    (cur1 cur2 : SDL_Cursor) :
  reachable σ ->
  heap σ !! c1 = Some (BCursor cur1) -> heap σ !! c2 = Some (BCursor cur2) ->
  c1 <> c2 ->
  exists d1 d2 cd1 cd2 b1 b2,
    driverdata cur1 = Addr d1 /\ driverdata cur2 = Addr d2 /\
    heap σ !! d1 = Some (BCurData cd1) /\ heap σ !! d2 = Some (BCurData cd2) /\
    buffer cd1 = Addr b1 /\ buffer cd2 = Addr b2 /\
    heap σ !! b1 = Some (BBuffer (buffer_size cd1)) /\
    heap σ !! b2 = Some (BBuffer (buffer_size cd2)) /\
    d1 <> d2 /\ b1 <> b2.
Proof.
  intros Hok%reachable_heap_ok H1 H2 Hne.
  destruct (ok_cursor _ Hok _ _ H1) as (d1 & cd1 & Hcur1 & Hd1).
  destruct (ok_cursor _ Hok _ _ H2) as (d2 & cd2 & Hcur2 & Hd2).
  destruct (ok_curdata _ Hok _ _ Hd1) as (b1 & Hbuf1 & Hb1 & _).
  destruct (ok_curdata _ Hok _ _ Hd2) as (b2 & Hbuf2 & Hb2 & _).
  assert (Hd : d1 <> d2).
  { intros ->. apply Hne, (ok_cursor_inj _ Hok c1 c2 cur1 cur2); congruence. }
  exists d1, d2, cd1, cd2, b1, b2. repeat split; try done.
  intros ->. apply Hd, (ok_curdata_inj _ Hok d1 d2 cd1 cd2); congruence.
Qed.

Lemma cursors_never_share_witness :
  @reachable stub_host two_cursor_world /\
  heap two_cursor_world !! 1%positive = Some (BCursor (mkCursor NULL (Addr 2))) /\
  heap two_cursor_world !! 4%positive = Some (BCursor (mkCursor NULL (Addr 5))) /\
  1%positive <> 4%positive /\
  exists d1 d2 cd1 cd2 b1 b2,
    driverdata (mkCursor NULL (Addr 2)) = Addr d1 /\
    driverdata (mkCursor NULL (Addr 5)) = Addr d2 /\
    heap two_cursor_world !! d1 = Some (BCurData cd1) /\
    heap two_cursor_world !! d2 = Some (BCurData cd2) /\
    buffer cd1 = Addr b1 /\ buffer cd2 = Addr b2 /\
    heap two_cursor_world !! b1 = Some (BBuffer (buffer_size cd1)) /\
    heap two_cursor_world !! b2 = Some (BBuffer (buffer_size cd2)) /\
    d1 <> d2 /\ b1 <> b2.
Proof.
  assert (H1 : heap two_cursor_world !! 1%positive
               = Some (BCursor (mkCursor NULL (Addr 2))))
    by (vm_compute; reflexivity).
  assert (H2 : heap two_cursor_world !! 4%positive
               = Some (BCursor (mkCursor NULL (Addr 5))))
    by (vm_compute; reflexivity).
  assert (Hne : 1%positive <> 4%positive) by discriminate.
  split; [exact two_cursor_world_reachable|]. split; [exact H1|].
  split; [exact H2|]. split; [exact Hne|].
  exact (@cursors_never_share stub_host two_cursor_world 1 4 _ _
           two_cursor_world_reachable H1 H2 Hne).
Defined.

(** X11. Nothing leaks: every live cursor data struct is the driverdata
    of a live cursor struct and every live pixel buffer is the buffer of a
    live cursor data struct; so once the host has freed every cursor the
    heap is empty. *)
Theorem no_cursor_no_block {host : Host} (σ : world) :
  reachable σ ->
  (forall d cd, heap σ !! d = Some (BCurData cd) ->
     exists c cur, heap σ !! c = Some (BCursor cur) /\ driverdata cur = Addr d) /\
  (forall b n, heap σ !! b = Some (BBuffer n) ->
     exists d cd, heap σ !! d = Some (BCurData cd) /\ buffer cd = Addr b) /\
  ((forall c cur, heap σ !! c <> Some (BCursor cur)) -> heap σ = ∅).
Proof.
  intros Hreach. pose proof (reachable_heap_owned σ Hreach) as [H1 H2].
  split; [exact H1|]. split; [exact H2|].
  intros Hnone. apply map_empty. intros a.
  destruct (heap σ !! a) as [[cur|cd|n]|] eqn:Ha; [| | |done].
  - by destruct (Hnone a cur).
  - destruct (H1 _ _ Ha) as (c & cur & Hc & _). by destruct (Hnone c cur).
  - destruct (H2 _ _ Ha) as (d & cd & Hd & _).
    destruct (H1 _ _ Hd) as (c & cur & Hc & _). by destruct (Hnone c cur).
Qed.

Lemma no_cursor_no_block_witness :
  @reachable stub_host freed_world /\
  (forall c cur, heap freed_world !! c <> Some (BCursor cur)) /\
  heap freed_world = ∅ /\
  @reachable stub_host one_cursor_world /\
  heap one_cursor_world !! 3%positive = Some (BBuffer 24) /\
  exists d cd,
    heap one_cursor_world !! d = Some (BCurData cd) /\ buffer cd = Addr 3.
Proof.
  assert (Hnone : forall c cur, heap freed_world !! c <> Some (BCursor cur)).
  { intros c cur. simpl. rewrite lookup_empty. discriminate. }
  assert (Hb : heap one_cursor_world !! 3%positive = Some (BBuffer 24))
    by (vm_compute; reflexivity).
  split; [exact freed_world_reachable|]. split; [exact Hnone|].
  split.
  - exact (proj2 (proj2 (@no_cursor_no_block stub_host freed_world
                           freed_world_reachable)) Hnone).
  - split; [exact one_cursor_world_reachable|]. split; [exact Hb|].
    exact (proj1 (proj2 (@no_cursor_no_block stub_host one_cursor_world
                           one_cursor_world_reachable)) 3%positive 24 Hb).
Defined.

(** X12. Freeing two different live cursors gives the same heap in either
    order, and neither order faults. *)
Theorem MALI_FreeCursor_commute {host : Host} (σ : world) (c1 c2 : positive)
    (cur1 cur2 : SDL_Cursor) :
  reachable σ ->
  heap σ !! c1 = Some (BCursor cur1) -> heap σ !! c2 = Some (BCursor cur2) ->
  c1 <> c2 ->
  exists σ1 σ12 σ2 σ21,
    MALI_FreeCursor (Addr c1) σ = Some (tt, σ1) /\
    MALI_FreeCursor (Addr c2) σ1 = Some (tt, σ12) /\
    MALI_FreeCursor (Addr c2) σ = Some (tt, σ2) /\
    MALI_FreeCursor (Addr c1) σ2 = Some (tt, σ21) /\
    heap σ12 = heap σ21 /\
    heap σ12 !! c1 = None /\ heap σ12 !! c2 = None.
Proof.
  intros Hok%reachable_heap_ok H1 H2 Hne.
  destruct (ok_cursor _ Hok _ _ H1) as (d1 & cd1 & Hcur1 & Hd1).
  destruct (ok_cursor _ Hok _ _ H2) as (d2 & cd2 & Hcur2 & Hd2).
  destruct (ok_curdata _ Hok _ _ Hd1) as (b1 & Hbuf1 & Hb1 & _).
  destruct (ok_curdata _ Hok _ _ Hd2) as (b2 & Hbuf2 & Hb2 & _).
  assert (Hd : d1 <> d2).
  { intros ->. apply Hne, (ok_cursor_inj _ Hok c1 c2 cur1 cur2); congruence. }
  assert (Hb : b1 <> b2).
  { intros ->. apply Hd, (ok_curdata_inj _ Hok d1 d2 cd1 cd2); congruence. }
  assert (Hlive1 : forall b, buffer cd1 = Addr b ->
                     exists n, heap σ !! b = Some (BBuffer n))
    by (intros b Hbb; exists (buffer_size cd1); congruence).
  assert (Hlive2 : forall b, buffer cd2 = Addr b ->
                     exists n, heap σ !! b = Some (BBuffer n))
    by (intros b Hbb; exists (buffer_size cd2); congruence).
  pose proof (MALI_FreeCursor_live σ c1 d1 cur1 cd1 H1 Hcur1 Hd1 Hlive1) as F1.
  pose proof (MALI_FreeCursor_live σ c2 d2 cur2 cd2 H2 Hcur2 Hd2 Hlive2) as F2.
  rewrite Hbuf1 in F1. rewrite Hbuf2 in F2.
  eexists _, _, _, _. split; [exact F1|].
  split; [|split; [exact F2|split]].
  - eapply (MALI_FreeCursor_live _ c2 d2 cur2 cd2); simpl; try done.
    + apply freed_heap_lookup. repeat split; congruence.
    + apply freed_heap_lookup. repeat split; congruence.
    + intros b Hbb. exists (buffer_size cd2). apply freed_heap_lookup.
      repeat split; congruence.
  - eapply (MALI_FreeCursor_live _ c1 d1 cur1 cd1); simpl; try done.
    + apply freed_heap_lookup. repeat split; congruence.
    + apply freed_heap_lookup. repeat split; congruence.
    + intros b Hbb. exists (buffer_size cd1). apply freed_heap_lookup.
      repeat split; congruence.
  - simpl. rewrite Hbuf1, Hbuf2. unfold freed_heap. split; [|split].
    + apply map_eq. intros a. rewrite !lookup_delete.
      repeat case_decide; done.
    + rewrite lookup_delete_ne by done. rewrite !(lookup_delete_ne _ d2) by congruence.
      rewrite !(lookup_delete_ne _ b2) by congruence. apply lookup_delete_eq.
    + apply lookup_delete_eq.
Qed.

Lemma MALI_FreeCursor_commute_witness :
  @reachable stub_host two_cursor_world /\
  heap two_cursor_world !! 1%positive = Some (BCursor (mkCursor NULL (Addr 2))) /\
  heap two_cursor_world !! 4%positive = Some (BCursor (mkCursor NULL (Addr 5))) /\
  1%positive <> 4%positive /\
  exists σ1 σ12 σ2 σ21,
    MALI_FreeCursor (Addr 1) two_cursor_world = Some (tt, σ1) /\
    MALI_FreeCursor (Addr 4) σ1 = Some (tt, σ12) /\
    MALI_FreeCursor (Addr 4) two_cursor_world = Some (tt, σ2) /\
    MALI_FreeCursor (Addr 1) σ2 = Some (tt, σ21) /\
    heap σ12 = heap σ21 /\
    heap σ12 !! 1%positive = None /\ heap σ12 !! 4%positive = None.
Proof.
  assert (H1 : heap two_cursor_world !! 1%positive
               = Some (BCursor (mkCursor NULL (Addr 2))))
    by (vm_compute; reflexivity).
  assert (H2 : heap two_cursor_world !! 4%positive
               = Some (BCursor (mkCursor NULL (Addr 5))))
    by (vm_compute; reflexivity).
  assert (Hne : 1%positive <> 4%positive) by discriminate.
  split; [exact two_cursor_world_reachable|]. split; [exact H1|].
  split; [exact H2|]. split; [exact Hne|].
  exact (@MALI_FreeCursor_commute stub_host two_cursor_world 1 4 _ _
           two_cursor_world_reachable H1 H2 Hne).
Defined.

(** ** The length of the pixel buffer *)

(** X13. Given a live surface whose width and height are not negative and
    for which the width times 4 and the width times the height times 4 fit an
    [int], and an allocator that grants the three requests,
    MALI_CreateCursor returns a cursor whose pixel buffer has exactly
    width times height times 4 bytes, the [buffer_size] it records; the
    conversion fills it in rows of width times 4 bytes. *)
Theorem MALI_CreateCursor_buffer_exact (surface : SDL_Surface) (hx hy : Z)
    (σ : world) :
  surface_fits surface -> allocs_succeed 3 (oom_plan σ) = true ->
  exists c d b cd σ',
    MALI_CreateCursor surface hx hy σ = Some (Addr c, σ') /\
    heap σ' !! c = Some (BCursor (mkCursor NULL (Addr d))) /\
    heap σ' !! d = Some (BCurData cd) /\
    buffer cd = Addr b /\
    heap σ' !! b =
      Some (BBuffer (surface_w surface * surface_h surface * 4)) /\
    buffer_size cd = surface_w surface * surface_h surface * 4 /\
    trace σ' =
      trace σ ++
      [EPremultiplyAlpha (surface_w surface) (surface_h surface)
         (surface_format surface) (surface_pixels surface)
         (surface_pitch surface) SDL_PIXELFORMAT_ARGB8888 (Addr b)
         (surface_w surface * 4)].
Proof.
  intros Hfits Hplan.
  destruct (created_heap_new surface hx hy (heap σ)) as (Nc & Nd & Nb).
  exists (cursor_addr (heap σ)), (curdata_addr (heap σ)),
    (buffer_addr (heap σ)),
    (created_curdata surface hx hy (buffer_addr (heap σ))).
  eexists. split; [by apply MALI_CreateCursor_success|].
  assert (Hrow : int_mul (surface_w surface) 4 = surface_w surface * 4).
  { destruct Hfits as (Hw & Hh & Hrow & _). apply wrap_int_id.
    unfold in_int, INT_MIN, INT_MAX in *. lia. }
  simpl. rewrite Hrow, <- (surface_fits_exact _ Hfits).
  repeat split; done.
Qed.

Lemma MALI_CreateCursor_buffer_exact_witness :
  surface_fits surface_2x3 /\
  allocs_succeed 3 (oom_plan empty_world) = true /\
  exists c d b cd σ',
    MALI_CreateCursor surface_2x3 5 6 empty_world = Some (Addr c, σ') /\
    heap σ' !! c = Some (BCursor (mkCursor NULL (Addr d))) /\
    heap σ' !! d = Some (BCurData cd) /\
    buffer cd = Addr b /\
    heap σ' !! b = Some (BBuffer (2 * 3 * 4)) /\
    buffer_size cd = 2 * 3 * 4 /\
    trace σ' =
      [] ++ [EPremultiplyAlpha 2 3 SDL_PIXELFORMAT_ARGB8888 (Addr 99) 8
               SDL_PIXELFORMAT_ARGB8888 (Addr b) (2 * 4)].
Proof.
  assert (Hf : surface_fits surface_2x3)
    by (unfold surface_fits, INT_MAX; simpl; lia).
  split; [exact Hf|]. split; [reflexivity|].
  exact (MALI_CreateCursor_buffer_exact surface_2x3 5 6 empty_world Hf eq_refl).
Defined.

(** X14. In every world the host can reach through the hooks, every cursor
    data struct has a live pixel buffer of exactly width times height
    times 4 bytes for the width and height it records, neither of them
    negative, and that number is its [buffer_size]. *)
Theorem reachable_buffer_exact {host : Host} (σ : world) (d : positive)
    (cd : MALI_CursorData) :
  reachable σ -> heap σ !! d = Some (BCurData cd) ->
  exists b,
    buffer cd = Addr b /\
    heap σ !! b = Some (BBuffer (w cd * h cd * 4)) /\
    buffer_size cd = w cd * h cd * 4 /\
    0 <= w cd /\ 0 <= h cd.
Proof.
  intros Hreach Hd.
  destruct (ok_curdata _ (reachable_heap_ok _ Hreach) _ _ Hd)
    as (b & Hbuf & Hb & _).
  destruct (reachable_sizes_ok _ Hreach _ _ Hd) as (Hw & Hh & _ & Hsz).
  exists b. rewrite <- Hsz. done.
Qed.

Lemma reachable_buffer_exact_witness :
  @reachable stub_host two_cursor_world /\
  heap two_cursor_world !! 5%positive =
    Some (BCurData (created_curdata surface_2x3 1 1 6)) /\
  exists b,
    Addr 6 = Addr b /\
    heap two_cursor_world !! b = Some (BBuffer (2 * 3 * 4)) /\
    24 = 2 * 3 * 4 /\ 0 <= 2 /\ 0 <= 3.
Proof.
  assert (Hd : heap two_cursor_world !! 5%positive =
               Some (BCurData (created_curdata surface_2x3 1 1 6)))
    by (vm_compute; reflexivity).
  split; [exact two_cursor_world_reachable|]. split; [exact Hd|].
  exact (@reachable_buffer_exact stub_host two_cursor_world 5 _
           two_cursor_world_reachable Hd).
Defined.
